(** * forge/forge.cpp: the hooking context of ShieldBattery

    A shallow embedding of [sbat::forge::Forge] (src/forge/forge.cpp) and
    the properties its specification states about it.

    Conventions of the embedding:
    - [int], [LONG], [LRESULT], [BOOL] are 32-bit signed integers, carried as
      [Z] with the wrap-around of the machine written out ([Int32.wrap]);
      [DWORD] and [UINT] are unsigned and only combined with [Z.lor] here.
    - Handles and code addresses ([HWND], [HMODULE], [WNDPROC], [FARPROC],
      ...) are [Z]; [NULL] and [nullptr] are [0].
    - A [char*] that may be null is an [option string].
    - The static member functions of [Forge] read and write the singleton
      [instance_]; the embedding threads the pointed-to object as the state
      of a small monad that also collects the calls made to the platform
      and aborts on a failed [assert].
    - [assert] is modelled as compiled in (no [NDEBUG]).
    - The message pump runs on a thread of its own; the embedding gives
      what that thread does as the trace of the queued work, apart from
      the trace of the call that queued it. *)

From Stdlib Require Import ZArith List String Ascii Bool Lia.
Import ListNotations.
Open Scope string_scope.
Open Scope Z_scope.

(** ** Machine integers *)

Module Int32.
Definition min_signed : Z := - 2 ^ 31.
Definition max_signed : Z := 2 ^ 31 - 1.
Definition in_range (z : Z) : Prop := min_signed <= z <= max_signed.
(** reduction of a mathematical integer to the 32-bit signed range *)
Definition wrap (z : Z) : Z := (z + 2 ^ 31) mod 2 ^ 32 - 2 ^ 31.
Definition add (a b : Z) : Z := wrap (a + b).
Definition sub (a b : Z) : Z := wrap (a - b).
(** C division truncates towards zero *)
Definition div (a b : Z) : Z := wrap (Z.quot a b).
End Int32.

(** ** C strings *)

Definition uchar (c : ascii) : Z := Z.of_N (N_of_ascii c).

(** [strcmp] of the C library on the characters two [char*] point to: the
    comparison is on unsigned characters and stops at the terminator. Only
    the sign of the result is specified by C; the code tests it against 0. *)
Fixpoint strcmp (s t : string) : Z :=
  match s, t with
  | EmptyString, EmptyString => 0
  | EmptyString, String d _ => 0 - uchar d
  | String c _, EmptyString => uchar c
  | String c s', String d t' =>
      if uchar c =? uchar d
      then (if uchar c =? 0 then 0 else strcmp s' t')
      else uchar c - uchar d
  end.

(** The characters of a C string: everything before the terminator, so no
    NUL among them. *)
Fixpoint c_string (s : string) : Prop :=
  match s with
  | EmptyString => True
  | String c s' => uchar c <> 0 /\ c_string s'
  end.

(** What [strcpy_s] copies out of a buffer: the characters before the
    first NUL. *)
Fixpoint c_str (s : string) : string :=
  match s with
  | EmptyString => EmptyString
  | String c s' => if uchar c =? 0 then EmptyString else String c (c_str s')
  end.

(** ** Windows types and constants (Windows.h) *)

Definition HWND := Z.
Definition HMODULE := Z.
Definition HMENU := Z.
Definition HINSTANCE := Z.
Definition LPVOID := Z.
Definition WNDPROC := Z.
Definition FARPROC := Z.
Definition NULL : Z := 0.

(** [LPCSTR] arguments of [CreateWindowExA] and [GetProcAddress]: either a
    pointer to characters, or a small integer in the pointer's place (a
    class atom, an export ordinal), which is not a pointer to anything. *)
Inductive LPCSTR : Type :=
| CStr (s : string)
| IntResource (n : Z).

Module Rect.
Record RECT : Type := mk { left : Z; top : Z; right : Z; bottom : Z }.
End Rect.
Definition RECT : Type := Rect.RECT.

Record MSG : Type := mkMSG {
  hwnd : HWND; message : Z; wParam : Z; lParam : Z; time : Z; pt : Z * Z }.

Definition SM_CXSCREEN : Z := 0.
Definition SM_CYSCREEN : Z := 1.
Definition SM_CXFULLSCREEN : Z := 16.
Definition SM_CYFULLSCREEN : Z := 17.

Definition WS_POPUP : Z := 0x80000000.
Definition WS_VISIBLE : Z := 0x10000000.
Definition WS_CAPTION : Z := 0x00C00000.
Definition WS_SYSMENU : Z := 0x00080000.

Definition WM_PAINT : Z := 0x000F.
Definition WM_CLOSE : Z := 0x0010.
Definition WM_NCHITTEST : Z := 0x0084.
Definition WM_NCPAINT : Z := 0x0085.
Definition WM_NCACTIVATE : Z := 0x0086.
Definition WM_NCMOUSEMOVE : Z := 0x00A0.
Definition WM_NCLBUTTONDOWN : Z := 0x00A1.
Definition WM_NCLBUTTONUP : Z := 0x00A2.
Definition WM_USER : Z := 0x0400.
Definition GWL_WNDPROC : Z := -4.
Definition MB_OK : Z := 0.

(** forge.cpp, line 136 *)
Definition WM_END_WND_PROC_WORKER : Z := WM_USER + 27.

(** The twelve arguments of [CreateWindowExA]. *)
Record CreateWindowArgs : Type := mkArgs {
  dwExStyle : Z; lpClassName : LPCSTR; lpWindowName : LPCSTR; dwStyle : Z;
  x : Z; y : Z; nWidth : Z; nHeight : Z;
  hWndParent : HWND; hMenu : HMENU; hInstance : HINSTANCE; lpParam : LPVOID }.

(** Values handed over by the JavaScript side. *)
Inductive JsValue : Type :=
| JsUndefined
| JsNull
| JsBoolean (b : bool)
| JsString (s : string)
| JsFunction (id : Z).

(** ** The platform

    What the functions of user32 and of V8 return when forge.cpp calls them
    by name. [GetSystemMetrics] is the function the hooking module itself
    is linked against; the import that [Forge] patches is the one of the
    process module ([GetModuleHandle(NULL)], line 45). *)
Module Win32.
Record Platform : Type := mk {
  GetSystemMetrics : Z -> Z;
  (** the rectangle left in [*lpRect]; the BOOL result is ignored by
      the caller *)
  AdjustWindowRect : RECT -> Z -> bool -> RECT;
  GetWindowLong : HWND -> Z -> Z;
  DefWindowProc : HWND -> Z -> Z -> Z -> Z;
  (** the result of calling through a [WNDPROC] pointer *)
  invoke : WNDPROC -> HWND -> Z -> Z -> Z -> Z;
  (** address of [Forge::WndProc], as cast to [LONG] on line 283 *)
  addr_WndProc : Z;
  (** address of [DirectGlawCreate] (forge/direct_glaw.h) *)
  addr_DirectGlawCreate : FARPROC;
  (** the characters [v8::String::AsciiValue] makes of a JavaScript value *)
  AsciiValue : JsValue -> string
}.
End Win32.
Definition Platform : Type := Win32.Platform.

(** ** Hook entries *)

Definition CreateWindowExAFunc : Type := CreateWindowArgs -> HWND.
Definition GetSystemMetricsFunc : Type := Z -> Z.
Definition GetProcAddressFunc : Type := HMODULE -> LPCSTR -> FARPROC.

(** [ImportHook<F>] is declared in common/func_hook.h; forge.cpp uses
    three members of it: [original()], [Inject()] and [Restore()]. The
    first is a field here; the other two are the interface below, over
    whatever bookkeeping an entry keeps about its patch, each answering
    the boolean that forge.cpp accumulates with [&=]. *)
Class ImportHookImpl : Type := {
  patch_state : Type;
  hook_Inject : patch_state -> bool * patch_state;
  hook_Restore : patch_state -> bool * patch_state
}.

Record ImportHook `{ImportHookImpl} (F : Type) : Type := mkHook {
  original : F;
  patch : patch_state
}.
Arguments mkHook {_ F} _ _.
Arguments original {_ F} _.
Arguments patch {_ F} _.

Module ImportHooks.
Record t `{ImportHookImpl} : Type := mk {
  CreateWindowExA : ImportHook CreateWindowExAFunc;
  GetSystemMetrics : ImportHook GetSystemMetricsFunc;
  GetProcAddress : ImportHook GetProcAddressFunc
}.
End ImportHooks.

(** ** Observable calls *)

Inductive LogArg : Type :=
| LStr (s : string)
| LInt (z : Z).

Inductive HookName : Type := HCreateWindowExA | HGetSystemMetrics | HGetProcAddress.

(** [Logf] stands for both [Logger::Logf] and [Logger::Log]. *)
Inductive Event : Type :=
| Logf (fmt : string) (args : list LogArg)
| Original_CreateWindowExA (a : CreateWindowArgs)
| Original_GetSystemMetrics (nIndex : Z)
| Original_GetProcAddress (hModule : HMODULE) (lpProcName : LPCSTR)
| Hook_Inject (h : HookName)
| Hook_Restore (h : HookName)
| Call_GetSystemMetrics (nIndex : Z)
| Call_AdjustWindowRect (r : RECT) (style : Z) (bMenu : bool)
| Call_GetWindowLong (w : HWND) (nIndex : Z)
| Call_SetWindowLong (w : HWND) (nIndex : Z) (v : Z)
| Call_DefWindowProc (w : HWND) (msg wparam lparam : Z)
| Call_MessageBox (w : HWND) (text caption : string) (uType : Z)
| Call_original_wndproc (f : WNDPROC) (w : HWND) (msg wparam lparam : Z)
| Call_PostMessage (w : HWND) (msg wparam lparam : Z)
| Call_GetMessage
| Call_TranslateMessage (m : MSG)
| Call_DispatchMessage (m : MSG)
| Glaw_AddRef (g : Z)
| Glaw_SetVertexShader (g : Z) (src : option string)
| Glaw_SetFragmentShader (g : Z) (src : option string)
| Js_Call (cb : JsValue) (argv : list JsValue)
| Js_Dispose (cb : JsValue)
| Node_FatalException.

(** ** The monad of the embedding: state, trace of calls, abort *)

Inductive Res (S A : Type) : Type :=
| Ret (a : A) (st : S)
| AssertFail
| Crash.
Arguments Ret {S A} _ _.
Arguments AssertFail {S A}.
Arguments Crash {S A}.

Definition M (S A : Type) : Type := S -> list Event * Res S A.

Definition ret {S A} (a : A) : M S A := fun st => ([], Ret a st).

Definition bind {S A B} (m : M S A) (f : A -> M S B) : M S B :=
  fun st =>
    match m st with
    | (t, Ret a st') => let (t', r) := f a st' in ((t ++ t')%list, r)
    | (t, AssertFail) => (t, AssertFail)
    | (t, Crash) => (t, Crash)
    end.

Definition emit {S} (e : Event) : M S unit := fun st => ([e], Ret tt st).
Definition get {S} : M S S := fun st => ([], Ret st st).
Definition put {S} (st' : S) : M S unit := fun _ => ([], Ret tt st').
Definition assert {S} (b : bool) : M S unit :=
  fun st => if b then ([], Ret tt st) else ([], AssertFail).
Definition crash {S A} : M S A := fun _ => ([], Crash).

Declare Scope forge_scope.
Delimit Scope forge_scope with forge.
Notation "x <- m ;; k" := (bind m (fun x => k))
  (at level 61, m at next level, right associativity) : forge_scope.
Notation "m ;;; k" := (bind m (fun _ => k))
  (at level 61, right associativity) : forge_scope.
Open Scope forge_scope.

(** reading the characters behind an [LPCSTR]: an integer in the pointer's
    place is not readable memory *)
Definition deref {S} (p : LPCSTR) : M S string :=
  match p with
  | CStr s => ret s
  | IntResource _ => crash
  end.

(** ** The hooking context *)

Record Forge `{ImportHookImpl} : Type := mkForge {
  hooks_ : ImportHooks.t;
  window_handle_ : HWND;
  original_wndproc_ : WNDPROC;
  direct_glaw_ : Z;
  vertex_shader_src_ : option string;
  fragment_shader_src_ : option string
}.

(** lines 138-141 *)
Record WndProcContext : Type := mkContext {
  cb : JsValue;
  quit : bool
}.

(** One call of [GetMessage(&msg, NULL, 0, 0)] as the pump sees it: the
    BOOL it returns (0 once the queue is closed by WM_QUIT, -1 on error,
    non-zero otherwise) and what it stores into [msg], if anything. *)
Record GetMessageCall : Type := mkGetMessage {
  gm_result : Z;
  gm_msg : option MSG
}.

Definition retrieved (msg : MSG) (c : GetMessageCall) : MSG :=
  match gm_msg c with
  | Some m => m
  | None => msg
  end.

Definition is_null (o : option string) : bool :=
  match o with
  | Some _ => false
  | None => true
  end.

Section ForgeCode.
Context `{ImportHookImpl}.
Variable p : Platform.

Definition set_hooks_ (inst : Forge) (hs : ImportHooks.t) : Forge :=
  mkForge _ hs (window_handle_ inst) (original_wndproc_ inst)
    (direct_glaw_ inst) (vertex_shader_src_ inst) (fragment_shader_src_ inst).
Definition set_window_handle_ (inst : Forge) (h : HWND) : Forge :=
  mkForge _ (hooks_ inst) h (original_wndproc_ inst)
    (direct_glaw_ inst) (vertex_shader_src_ inst) (fragment_shader_src_ inst).
Definition set_original_wndproc_ (inst : Forge) (w : WNDPROC) : Forge :=
  mkForge _ (hooks_ inst) (window_handle_ inst) w
    (direct_glaw_ inst) (vertex_shader_src_ inst) (fragment_shader_src_ inst).
Definition set_direct_glaw_ (inst : Forge) (g : Z) : Forge :=
  mkForge _ (hooks_ inst) (window_handle_ inst) (original_wndproc_ inst)
    g (vertex_shader_src_ inst) (fragment_shader_src_ inst).
Definition set_vertex_shader_src_ (inst : Forge) (s : option string) : Forge :=
  mkForge _ (hooks_ inst) (window_handle_ inst) (original_wndproc_ inst)
    (direct_glaw_ inst) s (fragment_shader_src_ inst).
Definition set_fragment_shader_src_ (inst : Forge) (s : option string) : Forge :=
  mkForge _ (hooks_ inst) (window_handle_ inst) (original_wndproc_ inst)
    (direct_glaw_ inst) (vertex_shader_src_ inst) s.

(** [Forge::Forge()], lines 35-52: the object the constructor leaves,
    given the three entries it has built. *)
Definition Forge_new (hooks : ImportHooks.t) : Forge :=
  mkForge _ hooks NULL 0 0 None None.

(** [Forge::RegisterDirectGlaw], lines 90-99. *)
Definition RegisterDirectGlaw (direct_glaw : Z) : M Forge unit :=
  inst <- get ;;
  assert (direct_glaw_ inst =? 0) ;;;
  assert (negb (is_null (vertex_shader_src_ inst))) ;;;
  assert (negb (is_null (fragment_shader_src_ inst))) ;;;
  (* [direct_glaw->AddRef()] goes through the pointer *)
  (if direct_glaw =? 0 then crash else emit (Glaw_AddRef direct_glaw)) ;;;
  put (set_direct_glaw_ inst direct_glaw) ;;;
  emit (Glaw_SetVertexShader direct_glaw (vertex_shader_src_ inst)) ;;;
  emit (Glaw_SetFragmentShader direct_glaw (fragment_shader_src_ inst)).

(** [hooks_.name->Inject()] and [hooks_.name->Restore()] on one entry. *)
Definition ImportHook_Inject {F} (h : ImportHook F) : bool * ImportHook F :=
  let (r, ps) := hook_Inject (patch h) in (r, mkHook (original h) ps).
Definition ImportHook_Restore {F} (h : ImportHook F) : bool * ImportHook F :=
  let (r, ps) := hook_Restore (patch h) in (r, mkHook (original h) ps).

(** [Forge::Inject], lines 114-123. [result &= e] on [bool]s evaluates
    [e] whatever [result] is. *)
Definition Inject (args : list JsValue) : M Forge JsValue :=
  inst <- get ;;
  let hs := hooks_ inst in
  let result := true in
  emit (Hook_Inject HCreateWindowExA) ;;;
  let (r1, h1) := ImportHook_Inject (ImportHooks.CreateWindowExA hs) in
  let result := result && r1 in
  emit (Hook_Inject HGetSystemMetrics) ;;;
  let (r2, h2) := ImportHook_Inject (ImportHooks.GetSystemMetrics hs) in
  let result := result && r2 in
  emit (Hook_Inject HGetProcAddress) ;;;
  let (r3, h3) := ImportHook_Inject (ImportHooks.GetProcAddress hs) in
  let result := result && r3 in
  put (set_hooks_ inst (ImportHooks.mk _ h1 h2 h3)) ;;;
  ret (JsBoolean result).

(** [Forge::Restore], lines 125-134. *)
Definition Restore (args : list JsValue) : M Forge JsValue :=
  inst <- get ;;
  let hs := hooks_ inst in
  let result := true in
  emit (Hook_Restore HCreateWindowExA) ;;;
  let (r1, h1) := ImportHook_Restore (ImportHooks.CreateWindowExA hs) in
  let result := result && r1 in
  emit (Hook_Restore HGetSystemMetrics) ;;;
  let (r2, h2) := ImportHook_Restore (ImportHooks.GetSystemMetrics hs) in
  let result := result && r2 in
  emit (Hook_Restore HGetProcAddress) ;;;
  let (r3, h3) := ImportHook_Restore (ImportHooks.GetProcAddress hs) in
  let result := result && r3 in
  put (set_hooks_ inst (ImportHooks.mk _ h1 h2 h3)) ;;;
  ret (JsBoolean result).

(** The loop of [WndProcWorker], lines 147-158, over the outcomes of the
    successive [GetMessage] calls. [msg] is what the local [MSG msg]
    holds before the call. [None]: every outcome given has been consumed
    and the pump is blocked in [GetMessage]. *)
Fixpoint WndProcWorker_loop (calls : list GetMessageCall) (msg : MSG)
    (context : WndProcContext) : option (list Event * WndProcContext) :=
  match calls with
  | [] => None
  | c :: calls' =>
      let msg := retrieved msg c in
      if gm_result c =? 0 then
        Some ([Call_GetMessage], mkContext (cb context) true)
      else if message msg =? WM_END_WND_PROC_WORKER then
        Some ([Call_GetMessage], context)
      else
        match WndProcWorker_loop calls' msg context with
        | Some (t, context') =>
            Some (Call_GetMessage :: Call_TranslateMessage msg
                    :: Call_DispatchMessage msg :: t, context')
        | None => None
        end
  end.

(** [WndProcWorker], lines 143-159; [msg0] is the content of the
    uninitialised local [msg]. *)
Definition WndProcWorker (calls : list GetMessageCall) (msg0 : MSG)
    (context : WndProcContext) : option (list Event * WndProcContext) :=
  WndProcWorker_loop calls msg0 (mkContext (cb context) false).

(** [WndProcWorkerAfter], lines 161-174; [caught] is whether the
    callback threw. *)
Definition WndProcWorkerAfter (caught : bool) (context : WndProcContext)
  : list Event :=
  [Js_Call (cb context) [JsNull; JsBoolean (quit context)];
   Js_Dispose (cb context)]
  ++ (if caught then [Node_FatalException] else []).

(** Modelled from the spec: [sbat::QueueWorkForUiThread], declared in
    shieldbattery/shieldbattery.h. Per the specification the queued work
    function runs on the pump's own execution context and, when it has
    returned, the completion function runs once on the context that
    scheduled the work. The result is what the queued work does, [None] as
    long as the work function has not returned. *)
Definition QueueWorkForUiThread {C : Type} (context : C)
    (worker : C -> option (list Event * C)) (after : C -> list Event)
  : option (list Event) :=
  match worker context with
  | Some (t, context') => Some (t ++ after context')%list
  | None => None
  end.

(** [Forge::RunWndProc], lines 176-188. The call returns [undefined] at
    once; the second component is what the work it has queued does. *)
Definition RunWndProc (args : list JsValue) (calls : list GetMessageCall)
    (msg0 : MSG) (caught : bool) : M Forge (JsValue * option (list Event)) :=
  inst <- get ;;
  assert (negb (window_handle_ inst =? NULL)) ;;;
  assert (0 <? Z.of_nat (List.length args)) ;;;
  let cb := nth 0 args JsUndefined in
  let context := mkContext cb false in
  ret (JsUndefined,
       QueueWorkForUiThread context (WndProcWorker calls msg0)
         (WndProcWorkerAfter caught)).

(** [Forge::EndWndProc], lines 190-196. *)
Definition EndWndProc (args : list JsValue) : M Forge JsValue :=
  inst <- get ;;
  assert (negb (window_handle_ inst =? NULL)) ;;;
  emit (Call_PostMessage (window_handle_ inst) WM_END_WND_PROC_WORKER NULL NULL) ;;;
  ret JsUndefined.

(** [Forge::SetVertexShader], lines 198-210. *)
Definition SetVertexShader (args : list JsValue) : M Forge JsValue :=
  inst <- get ;;
  assert (window_handle_ inst =? NULL) ;;;
  assert (1 <=? Z.of_nat (List.length args)) ;;;
  let shader_src := Win32.AsciiValue p (nth 0 args JsUndefined) in
  put (set_vertex_shader_src_ inst (Some (c_str shader_src))) ;;;
  ret JsUndefined.

(** [Forge::SetFragmentShader], lines 212-224. *)
Definition SetFragmentShader (args : list JsValue) : M Forge JsValue :=
  inst <- get ;;
  assert (window_handle_ inst =? NULL) ;;;
  assert (1 <=? Z.of_nat (List.length args)) ;;;
  let shader_src := Win32.AsciiValue p (nth 0 args JsUndefined) in
  put (set_fragment_shader_src_ inst (Some (c_str shader_src))) ;;;
  ret JsUndefined.

(** the [case] labels of lines 230-236 *)
Definition default_only (msg : Z) : bool :=
  (msg =? WM_NCACTIVATE) || (msg =? WM_NCHITTEST)
  || (msg =? WM_NCLBUTTONDOWN) || (msg =? WM_NCLBUTTONUP)
  || (msg =? WM_NCMOUSEMOVE) || (msg =? WM_NCPAINT) || (msg =? WM_PAINT).

(** [Forge::WndProc], lines 226-247. *)
Definition WndProc (window_handle : HWND) (msg wparam lparam : Z)
  : M Forge Z :=
  emit (Logf "WndProc(..., 0x%04x, 0x%08x, 0x%08x)"
          [LInt msg; LInt wparam; LInt lparam]) ;;;
  if default_only msg then
    emit (Call_DefWindowProc window_handle msg wparam lparam) ;;;
    ret (Win32.DefWindowProc p window_handle msg wparam lparam)
  else
    (if msg =? WM_CLOSE
     then emit (Call_MessageBox window_handle "Omg." "Pls no..." MB_OK)
     else ret tt) ;;;
    inst <- get ;;
    if original_wndproc_ inst =? 0 then
      emit (Call_DefWindowProc window_handle msg wparam lparam) ;;;
      ret (Win32.DefWindowProc p window_handle msg wparam lparam)
    else
      emit (Call_original_wndproc (original_wndproc_ inst)
              window_handle msg wparam lparam) ;;;
      ret (Win32.invoke p (original_wndproc_ inst)
             window_handle msg wparam lparam).

(** line 265 *)
Definition game_window_style : Z :=
  Z.lor (Z.lor (Z.lor WS_POPUP WS_VISIBLE) WS_CAPTION) WS_SYSMENU.

(** [Forge::CreateWindowExAHook], lines 249-286. The class name is read
    by the log line and by [strcmp]. Lines 263-264 call [GetSystemMetrics]
    by name, which is the platform's function and not
    [GetSystemMetricsHook]. *)
Definition CreateWindowExAHook (a : CreateWindowArgs) : M Forge HWND :=
  cls <- deref (lpClassName a) ;;
  emit (Logf "CreateWindowExA called for class %s (%d,%d), %dx%d"
          [LStr cls; LInt (x a); LInt (y a);
           LInt (nWidth a); LInt (nHeight a)]) ;;;
  inst <- get ;;
  if negb (strcmp cls "SWarClass" =? 0) then
    emit (Original_CreateWindowExA a) ;;;
    ret (original (ImportHooks.CreateWindowExA (hooks_ inst)) a)
  else
    assert (window_handle_ inst =? NULL) ;;;
    let width := 640 in
    let height := 480 in
    emit (Call_GetSystemMetrics SM_CXSCREEN) ;;;
    let left :=
      Int32.div (Int32.sub (Win32.GetSystemMetrics p SM_CXSCREEN) 640) 2 in
    emit (Call_GetSystemMetrics SM_CYSCREEN) ;;;
    let top :=
      Int32.div (Int32.sub (Win32.GetSystemMetrics p SM_CYSCREEN) 480) 2 in
    let style := game_window_style in
    let window_rect :=
      Rect.mk left top (Int32.add left width) (Int32.add top height) in
    emit (Call_AdjustWindowRect window_rect style false) ;;;
    let window_rect := Win32.AdjustWindowRect p window_rect style false in
    emit (Logf "Rewriting CreateWindowExA call to (%d, %d), %dx%d)"
            [LInt (Rect.left window_rect); LInt (Rect.top window_rect);
             LInt (Int32.sub (Rect.right window_rect) (Rect.left window_rect));
             LInt (Int32.sub (Rect.bottom window_rect) (Rect.top window_rect))]) ;;;
    let a' :=
      mkArgs (dwExStyle a) (lpClassName a) (lpWindowName a) style
        (Rect.left window_rect) (Rect.top window_rect)
        (Int32.sub (Rect.right window_rect) (Rect.left window_rect))
        (Int32.sub (Rect.bottom window_rect) (Rect.top window_rect))
        (hWndParent a) (hMenu a) (hInstance a) (lpParam a) in
    emit (Original_CreateWindowExA a') ;;;
    let inst := set_window_handle_ inst
                  (original (ImportHooks.CreateWindowExA (hooks_ inst)) a') in
    put inst ;;;
    emit (Call_GetWindowLong (window_handle_ inst) GWL_WNDPROC) ;;;
    let inst := set_original_wndproc_ inst
                  (Win32.GetWindowLong p (window_handle_ inst) GWL_WNDPROC) in
    put inst ;;;
    emit (Call_SetWindowLong (window_handle_ inst) GWL_WNDPROC
            (Win32.addr_WndProc p)) ;;;
    ret (window_handle_ inst).

(** [Forge::GetSystemMetricsHook], lines 288-299. *)
Definition GetSystemMetricsHook (nIndex : Z) : M Forge Z :=
  if (nIndex =? SM_CXSCREEN) || (nIndex =? SM_CXFULLSCREEN) then ret 640
  else if (nIndex =? SM_CYSCREEN) || (nIndex =? SM_CYFULLSCREEN) then ret 480
  else
    inst <- get ;;
    emit (Original_GetSystemMetrics nIndex) ;;;
    ret (original (ImportHooks.GetSystemMetrics (hooks_ inst)) nIndex).

(** [Forge::GetProcAddressHook], lines 301-308. *)
Definition GetProcAddressHook (hModule : HMODULE) (lpProcName : LPCSTR)
  : M Forge FARPROC :=
  name <- deref lpProcName ;;
  if strcmp name "DirectDrawCreate" =? 0 then
    emit (Logf "Injecting custom DirectDrawCreate" []) ;;;
    ret (Win32.addr_DirectGlawCreate p)
  else
    inst <- get ;;
    emit (Original_GetProcAddress hModule lpProcName) ;;;
    ret (original (ImportHooks.GetProcAddress (hooks_ inst)) hModule lpProcName).

End ForgeCode.

(** ** The operations on a hooking context, as a transition system

    Every entry point of forge.cpp that reads or writes [instance_], with
    what the environment supplies to it. *)

Inductive Op : Type :=
| OpRegisterDirectGlaw (direct_glaw : Z)
| OpInject (args : list JsValue)
| OpRestore (args : list JsValue)
| OpRunWndProc (args : list JsValue) (calls : list GetMessageCall)
    (msg0 : MSG) (caught : bool)
| OpEndWndProc (args : list JsValue)
| OpSetVertexShader (args : list JsValue)
| OpSetFragmentShader (args : list JsValue)
| OpWndProc (window_handle : HWND) (msg wparam lparam : Z)
| OpCreateWindowExA (a : CreateWindowArgs)
| OpGetSystemMetrics (nIndex : Z)
| OpGetProcAddress (hModule : HMODULE) (lpProcName : LPCSTR).

Definition discard {S A : Type} (m : M S A) : M S unit :=
  _ <- m ;; ret tt.

Definition step `{ImportHookImpl} (p : Platform) (op : Op) : M Forge unit :=
  match op with
  | OpRegisterDirectGlaw g => RegisterDirectGlaw g
  | OpInject args => discard (Inject args)
  | OpRestore args => discard (Restore args)
  | OpRunWndProc args calls msg0 caught =>
      discard (RunWndProc args calls msg0 caught)
  | OpEndWndProc args => discard (EndWndProc args)
  | OpSetVertexShader args => discard (SetVertexShader p args)
  | OpSetFragmentShader args => discard (SetFragmentShader p args)
  | OpWndProc h msg wparam lparam => discard (WndProc p h msg wparam lparam)
  | OpCreateWindowExA a => discard (CreateWindowExAHook p a)
  | OpGetSystemMetrics nIndex => discard (GetSystemMetricsHook nIndex)
  | OpGetProcAddress hModule lpProcName =>
      discard (GetProcAddressHook p hModule lpProcName)
  end.

(** A run: operations in sequence, each against the platform as it
    answers at that moment. [None] once the process has aborted. *)
Fixpoint run `{ImportHookImpl} (ops : list (Platform * Op)) (inst : Forge)
  : option Forge :=
  match ops with
  | [] => Some inst
  | (p, op) :: ops' =>
      match snd (step p op inst) with
      | Ret _ inst' => run ops' inst'
      | AssertFail => None
      | Crash => None
      end
  end.

(** ** Reading a trace *)

Definition is_Logf (e : Event) : bool :=
  match e with
  | Logf _ _ => true
  | _ => false
  end.

(** the calls of a trace other than logging *)
Definition platform_calls (t : list Event) : list Event :=
  filter (fun e => negb (is_Logf e)) t.

Definition is_Js_Call (e : Event) : bool :=
  match e with
  | Js_Call _ _ => true
  | _ => false
  end.

(** the invocations of JavaScript callbacks in a trace *)
Definition js_calls (t : list Event) : list Event := filter is_Js_Call t.

(** the client rectangles handed to [AdjustWindowRect] in a trace *)
Fixpoint client_rects (t : list Event) : list RECT :=
  match t with
  | [] => []
  | Call_AdjustWindowRect r _ _ :: t' => r :: client_rects t'
  | _ :: t' => client_rects t'
  end.

(** ** The transition table of the chained window procedure *)

Inductive Action : Type :=
| ToDefault
| Confirm
| ToOriginal (f : WNDPROC).

(** the call an action of the table stands for *)
Definition action_call (w : HWND) (msg wparam lparam : Z) (a : Action)
  : Event :=
  match a with
  | ToDefault => Call_DefWindowProc w msg wparam lparam
  | Confirm => Call_MessageBox w "Omg." "Pls no..." MB_OK
  | ToOriginal f => Call_original_wndproc f w msg wparam lparam
  end.

Definition forward (original_wndproc : WNDPROC) : Action :=
  if original_wndproc =? 0 then ToDefault else ToOriginal original_wndproc.

(** The table as the specification words it: three classes of message,
    one action each. *)
Definition spec_table (original_wndproc : WNDPROC) (msg : Z) : list Action :=
  if default_only msg then [ToDefault]
  else if msg =? WM_CLOSE then [Confirm]
  else [forward original_wndproc].

(** The table with the close request forwarded after its dialog. *)
Definition chained_table (original_wndproc : WNDPROC) (msg : Z)
  : list Action :=
  if default_only msg then [ToDefault]
  else if msg =? WM_CLOSE then [Confirm; forward original_wndproc]
  else [forward original_wndproc].

(** ** Centring *)

(** origin of a [size]-wide span centred in an [extent]-wide one, in [int]
    arithmetic (lines 263-264) *)
Definition centred (extent size : Z) : Z :=
  Int32.div (Int32.sub extent size) 2.

(** the client rectangle of the game window for a screen of the given
    metrics (lines 261-272) *)
Definition client_rect_for (cx cy : Z) : RECT :=
  Rect.mk (centred cx 640) (centred cy 480)
    (Int32.add (centred cx 640) 640) (Int32.add (centred cy 480) 480).

(** ** Why the pump returns

    [pump_exits calls msg quit]: over the given outcomes of [GetMessage]
    the loop is left, by the queue being closed ([quit = true]) or by the
    sentinel having been retrieved ([quit = false]). *)
Inductive pump_exits : list GetMessageCall -> MSG -> bool -> Prop :=
| exit_closed c calls msg :
    gm_result c = 0 ->
    pump_exits (c :: calls) msg true
| exit_sentinel c calls msg :
    gm_result c <> 0 ->
    message (retrieved msg c) = WM_END_WND_PROC_WORKER ->
    pump_exits (c :: calls) msg false
| exit_later c calls msg quit :
    gm_result c <> 0 ->
    message (retrieved msg c) <> WM_END_WND_PROC_WORKER ->
    pump_exits calls (retrieved msg c) quit ->
    pump_exits (c :: calls) msg quit.

(** ** Keeping the recorded window *)

Definition keeps_window `{ImportHookImpl} {A : Type} (h : HWND)
    (m : M Forge A) : Prop :=
  forall inst t a inst',
    window_handle_ inst = h -> m inst = (t, Ret a inst') ->
    window_handle_ inst' = h.

(** ** A concrete environment to run the code in *)

(** Modelled from the spec: the bookkeeping of a hook entry of
    common/func_hook.h. An entry has a boolean "currently active" state;
    injecting or restoring an entry that is already in the target state is
    a no-op success; otherwise the operation succeeds when the import slot
    can be overwritten ([writable]) and fails leaving the entry as it
    was. *)
Record SpecPatch : Type := mkPatch { active : bool; writable : bool }.

Definition SpecHook : ImportHookImpl := {|
  patch_state := SpecPatch;
  hook_Inject := fun s =>
    if active s then (true, s)
    else if writable s then (true, mkPatch true (writable s))
    else (false, s);
  hook_Restore := fun s =>
    if active s then
      (if writable s then (true, mkPatch false (writable s)) else (false, s))
    else (true, s)
|}.

(** a desktop of 1920x1080 with a window border of 3 and a caption of 23 *)
Definition desktop : Platform :=
  Win32.mk
    (fun nIndex => if nIndex =? SM_CXSCREEN then 1920
                   else if nIndex =? SM_CYSCREEN then 1080
                   else if nIndex =? 5 then -1 else 0)
    (fun r _ _ => Rect.mk (Rect.left r - 3) (Rect.top r - 26)
                    (Rect.right r + 3) (Rect.bottom r + 3))
    (fun _ _ => 0x00401000)
    (fun _ _ _ _ => 0)
    (fun _ _ _ _ _ => 1)
    0x10001000
    0x10002000
    (fun v => match v with JsString s => s | _ => "undefined" end).

Definition sample_hooks (w1 w2 w3 : bool) : @ImportHooks.t SpecHook :=
  @ImportHooks.mk SpecHook
    (@mkHook SpecHook _ (fun _ => 0x000A0042) (mkPatch false w1))
    (@mkHook SpecHook _ (Win32.GetSystemMetrics desktop) (mkPatch false w2))
    (@mkHook SpecHook _ (fun _ _ => 0x7C80AE40) (mkPatch false w3)).

Definition game_window_request : CreateWindowArgs :=
  mkArgs 0 (CStr "SWarClass") (CStr "Brood War") WS_POPUP 0 0 1024 768
    NULL NULL 0x00400000 NULL.

Definition other_window_request : CreateWindowArgs :=
  mkArgs 0 (CStr "Button") (CStr "OK") WS_VISIBLE 10 20 80 25
    0x000A0042 NULL 0x00400000 NULL.

Definition some_msg (m : Z) : MSG := mkMSG 0x000A0042 m 0 0 0 (0, 0).

(** the context as constructed, then with both shader sources set, then
    with a window recorded *)
Definition fresh : @Forge SpecHook := Forge_new (sample_hooks true true true).

Definition configured : @Forge SpecHook :=
  set_fragment_shader_src_
    (set_vertex_shader_src_ fresh (Some "void main() {}"))
    (Some "void main() { }").

Definition windowed : @Forge SpecHook :=
  set_original_wndproc_ (set_window_handle_ configured 0x000A0042) 0x00401000.

(** ** Comparing two states of the context *)

(** everything but the hook entries is the same *)
Definition same_but_hooks `{ImportHookImpl} (inst inst' : Forge) : Prop :=
  window_handle_ inst' = window_handle_ inst /\
  original_wndproc_ inst' = original_wndproc_ inst /\
  direct_glaw_ inst' = direct_glaw_ inst /\
  vertex_shader_src_ inst' = vertex_shader_src_ inst /\
  fragment_shader_src_ inst' = fragment_shader_src_ inst.

(** the backend the context holds a reference on, if any *)
Definition held `{ImportHookImpl} (inst : Forge) : list Z :=
  if direct_glaw_ inst =? 0 then [] else [direct_glaw_ inst].

(** an operation other than the two shader setters *)
Definition not_a_setter (op : Op) : Prop :=
  match op with
  | OpSetVertexShader _ => False
  | OpSetFragmentShader _ => False
  | _ => True
  end.

(** ** Runs with their trace *)

Fixpoint run_trace `{ImportHookImpl} (ops : list (Platform * Op))
    (inst : Forge) : option (list Event * Forge) :=
  match ops with
  | [] => Some ([], inst)
  | (p, op) :: ops' =>
      match step p op inst with
      | (t, Ret _ inst') =>
          match run_trace ops' inst' with
          | Some (t', inst'') => Some ((t ++ t')%list, inst'')
          | None => None
          end
      | (_, AssertFail) => None
      | (_, Crash) => None
      end
  end.

(** the backends that a trace takes a reference on *)
Fixpoint addrefs (t : list Event) : list Z :=
  match t with
  | [] => []
  | Glaw_AddRef g :: t' => g :: addrefs t'
  | _ :: t' => addrefs t'
  end.

(** the arguments of the calls of the original [CreateWindowExA] *)
Fixpoint original_creates (t : list Event) : list CreateWindowArgs :=
  match t with
  | [] => []
  | Original_CreateWindowExA a :: t' => a :: original_creates t'
  | _ :: t' => original_creates t'
  end.

(** the messages handed to [DispatchMessage] *)
Fixpoint dispatched (t : list Event) : list MSG :=
  match t with
  | [] => []
  | Call_DispatchMessage m :: t' => m :: dispatched t'
  | _ :: t' => dispatched t'
  end.

(** what a pump does that dispatches the messages [ms] and then leaves *)
Definition pump_trace (ms : list MSG) : list Event :=
  (flat_map (fun m => [Call_GetMessage; Call_TranslateMessage m;
                       Call_DispatchMessage m]) ms
   ++ [Call_GetMessage])%list.

(** ** Construction and destruction

    [instance_] (line 33) is the one static of the class: [None] is
    [nullptr]. *)

(** [Forge::Forge()], lines 35-52, on the static; [hooks] are the three
    entries the constructor builds. *)
Definition Forge_constructor `{ImportHookImpl} (hooks : ImportHooks.t)
  : M (option Forge) unit :=
  instance_ <- get ;;
  assert (match instance_ with None => true | Some _ => false end) ;;;
  put (Some (Forge_new hooks)).

(** what the destructor gives back *)
Inductive Teardown : Type :=
| Delete_hook (h : HookName)
| Glaw_Release (g : Z)
| Delete_shader_src (src : option string).

(** [Forge::~Forge()], lines 54-73, on the object [this]: the calls it
    makes and the static it leaves. *)
Definition Forge_destructor `{ImportHookImpl} (this : Forge)
  : list Teardown * option Forge :=
  ([Delete_hook HCreateWindowExA; Delete_hook HGetSystemMetrics;
    Delete_hook HGetProcAddress]
   ++ (if direct_glaw_ this =? 0 then []
       else [Glaw_Release (direct_glaw_ this)])
   ++ [Delete_shader_src (vertex_shader_src_ this);
       Delete_shader_src (fragment_shader_src_ this)],
   None)%list.

(** the backends a teardown releases *)
Fixpoint releases (t : list Teardown) : list Z :=
  match t with
  | [] => []
  | Glaw_Release g :: t' => g :: releases t'
  | _ :: t' => releases t'
  end.

(** a failed [GetMessage]: -1 and nothing stored *)
Definition GetMessage_error : GetMessageCall := mkGetMessage (-1) None.

(** a desktop that refuses to create windows *)
Definition failing_hooks : @ImportHooks.t SpecHook :=
  @ImportHooks.mk SpecHook
    (@mkHook SpecHook _ (fun _ => NULL) (mkPatch false true))
    (@mkHook SpecHook _ (Win32.GetSystemMetrics desktop) (mkPatch false true))
    (@mkHook SpecHook _ (fun _ _ => 0x7C80AE40) (mkPatch false true)).

(** * Properties *)

(** ** C strings *)

Lemma uchar_inj (c d : ascii) : uchar c = uchar d -> c = d.
Proof.
  unfold uchar. intros E. apply N2Z.inj in E.
  rewrite <- (ascii_N_embedding c), <- (ascii_N_embedding d).
  now rewrite E.
Qed.

Lemma strcmp_refl (s : string) : strcmp s s = 0.
Proof.
  induction s as [|c s IH]; simpl; [reflexivity|].
  rewrite Z.eqb_refl. destruct (uchar c =? 0); [reflexivity | exact IH].
Qed.

Lemma strcmp_zero (s : string) :
  forall t, c_string s -> c_string t -> strcmp s t = 0 -> s = t.
Proof.
  induction s as [|c s IH]; intros [|d t] Hs Ht E; simpl in *.
  - reflexivity.
  - destruct Ht as [Hd _]. lia.
  - destruct Hs as [Hc _]. lia.
  - destruct Hs as [Hc Hs], Ht as [Hd Ht].
    destruct (Z.eqb_spec (uchar c) (uchar d)) as [Ecd|Ncd]; [|lia].
    destruct (Z.eqb_spec (uchar c) 0) as [E0|_]; [contradiction|].
    f_equal; [now apply uchar_inj | now apply IH].
Qed.

Lemma strcmp_differs (s t : string) :
  c_string s -> c_string t -> s <> t -> (strcmp s t =? 0) = false.
Proof.
  intros Hs Ht N. apply Z.eqb_neq. intros E. apply N.
  now apply strcmp_zero.
Qed.

Lemma c_string_DirectDrawCreate : c_string "DirectDrawCreate".
Proof. simpl. repeat split; discriminate. Qed.

Lemma c_string_SWarClass : c_string "SWarClass".
Proof. simpl. repeat split; discriminate. Qed.

(** ** Metrics Spoofer *)

(** C4. Each of the two width indices answers 640 and each of the two
    height indices 480, without the original being called; every other
    index is passed to the original metrics query and its value, whatever
    it is, is returned as it is. The hooking context is left unchanged. *)
Theorem GetSystemMetricsHook_spoofs `{ImportHookImpl} (inst : Forge) :
  GetSystemMetricsHook SM_CXSCREEN inst = ([], Ret 640 inst) /\
  GetSystemMetricsHook SM_CXFULLSCREEN inst = ([], Ret 640 inst) /\
  GetSystemMetricsHook SM_CYSCREEN inst = ([], Ret 480 inst) /\
  GetSystemMetricsHook SM_CYFULLSCREEN inst = ([], Ret 480 inst) /\
  forall nIndex,
    nIndex <> SM_CXSCREEN -> nIndex <> SM_CXFULLSCREEN ->
    nIndex <> SM_CYSCREEN -> nIndex <> SM_CYFULLSCREEN ->
    GetSystemMetricsHook nIndex inst =
    ([Original_GetSystemMetrics nIndex],
     Ret (original (ImportHooks.GetSystemMetrics (hooks_ inst)) nIndex) inst).
Proof.
  repeat split.
  intros n N1 N2 N3 N4. unfold GetSystemMetricsHook.
  apply Z.eqb_neq in N1, N2, N3, N4. rewrite N1, N2, N3, N4. reflexivity.
Qed.

Lemma GetSystemMetricsHook_spoofs_witness :
  GetSystemMetricsHook 5 fresh =
  ([Original_GetSystemMetrics 5],
   Ret (-1) fresh).
Proof.
  apply (GetSystemMetricsHook_spoofs fresh);
    discriminate.
Defined.

(** ** Symbol Redirector *)

(** C5. Asked for the name "DirectDrawCreate", the redirector answers the
    address of the substitute factory and does not call the original
    resolver; asked for any other name it calls the original resolver with
    the same module and name and answers what that answers. The hooking
    context is left unchanged. *)
Theorem GetProcAddressHook_redirects `{ImportHookImpl} (p : Platform)
    (inst : Forge) (hModule : HMODULE) :
  GetProcAddressHook p hModule (CStr "DirectDrawCreate") inst =
  ([Logf "Injecting custom DirectDrawCreate" []],
   Ret (Win32.addr_DirectGlawCreate p) inst) /\
  forall name,
    c_string name -> name <> "DirectDrawCreate" ->
    GetProcAddressHook p hModule (CStr name) inst =
    ([Original_GetProcAddress hModule (CStr name)],
     Ret (original (ImportHooks.GetProcAddress (hooks_ inst)) hModule (CStr name))
       inst).
Proof.
  split; [reflexivity|].
  intros name Hc N. unfold GetProcAddressHook, bind; simpl.
  rewrite (strcmp_differs _ _ Hc c_string_DirectDrawCreate N). reflexivity.
Qed.

Lemma GetProcAddressHook_redirects_witness :
  let inst := Forge_new (sample_hooks true true true) in
  GetProcAddressHook desktop 7 (CStr "directdrawcreate") inst =
    ([Original_GetProcAddress 7 (CStr "directdrawcreate")],
     Ret 0x7C80AE40 inst) /\
  GetProcAddressHook desktop 7 (CStr "") inst =
    ([Original_GetProcAddress 7 (CStr "")], Ret 0x7C80AE40 inst).
Proof.
  split.
  - apply (GetProcAddressHook_redirects desktop
             fresh 7).
    + simpl. repeat split; discriminate.
    + discriminate.
  - apply (GetProcAddressHook_redirects desktop
             fresh 7).
    + exact I.
    + discriminate.
Defined.

(** ** Hook Table *)

Lemma andb3_true (a b c : bool) :
  a && b && c = true <-> a = true /\ b = true /\ c = true.
Proof. destruct a, b, c; simpl; intuition congruence. Qed.

(** C6. [inject()] calls [Inject] on each of the three entries once, in
    the order of the table and whatever the earlier ones answered, and
    returns the conjunction of the three answers; [restore()] does the same
    with [Restore]. Each therefore reports success exactly when every entry
    succeeds. Only the entries of the hooking context change. *)
Theorem Inject_Restore_conjunction `{ImportHookImpl} (inst : Forge)
    (args : list JsValue) :
  let hs := hooks_ inst in
  let i1 := ImportHook_Inject (ImportHooks.CreateWindowExA hs) in
  let i2 := ImportHook_Inject (ImportHooks.GetSystemMetrics hs) in
  let i3 := ImportHook_Inject (ImportHooks.GetProcAddress hs) in
  let r1 := ImportHook_Restore (ImportHooks.CreateWindowExA hs) in
  let r2 := ImportHook_Restore (ImportHooks.GetSystemMetrics hs) in
  let r3 := ImportHook_Restore (ImportHooks.GetProcAddress hs) in
  Inject args inst =
    ([Hook_Inject HCreateWindowExA; Hook_Inject HGetSystemMetrics;
      Hook_Inject HGetProcAddress],
     Ret (JsBoolean (fst i1 && fst i2 && fst i3))
       (set_hooks_ inst (ImportHooks.mk _ (snd i1) (snd i2) (snd i3)))) /\
  Restore args inst =
    ([Hook_Restore HCreateWindowExA; Hook_Restore HGetSystemMetrics;
      Hook_Restore HGetProcAddress],
     Ret (JsBoolean (fst r1 && fst r2 && fst r3))
       (set_hooks_ inst (ImportHooks.mk _ (snd r1) (snd r2) (snd r3)))) /\
  (fst i1 && fst i2 && fst i3 = true <->
   fst i1 = true /\ fst i2 = true /\ fst i3 = true) /\
  (fst r1 && fst r2 && fst r3 = true <->
   fst r1 = true /\ fst r2 = true /\ fst r3 = true).
Proof.
  cbv zeta. split; [|split; [|split; apply andb3_true]].
  - unfold Inject, bind; simpl.
    destruct (ImportHook_Inject (ImportHooks.CreateWindowExA (hooks_ inst))).
    destruct (ImportHook_Inject (ImportHooks.GetSystemMetrics (hooks_ inst))).
    destruct (ImportHook_Inject (ImportHooks.GetProcAddress (hooks_ inst))).
    reflexivity.
  - unfold Restore, bind; simpl.
    destruct (ImportHook_Restore (ImportHooks.CreateWindowExA (hooks_ inst))).
    destruct (ImportHook_Restore (ImportHooks.GetSystemMetrics (hooks_ inst))).
    destruct (ImportHook_Restore (ImportHooks.GetProcAddress (hooks_ inst))).
    reflexivity.
Qed.

Lemma Inject_Restore_conjunction_witness :
  let inst := Forge_new (sample_hooks true false true) in
  Inject [] inst =
    ([Hook_Inject HCreateWindowExA; Hook_Inject HGetSystemMetrics;
      Hook_Inject HGetProcAddress],
     Ret (JsBoolean false)
       (set_hooks_ inst
          (@ImportHooks.mk SpecHook
             (@mkHook SpecHook _ (fun _ => 0x000A0042) (mkPatch true true))
             (@mkHook SpecHook _ (Win32.GetSystemMetrics desktop)
                (mkPatch false false))
             (@mkHook SpecHook _ (fun _ _ => 0x7C80AE40) (mkPatch true true))))).
Proof.
  exact (proj1 (Inject_Restore_conjunction
                  (Forge_new (sample_hooks true false true)) [])).
Defined.

(** ** Window Interceptor: other windows *)

(** C7. A creation request whose class name is not "SWarClass" is handed
    to the original creation function with its twelve arguments as they
    came, the handle that function returns is returned, and the hooking
    context (recorded window handle and captured original window procedure
    included) is what it was; besides the log line nothing else is called. *)
Theorem CreateWindowExAHook_passthrough `{ImportHookImpl} (p : Platform)
    (inst : Forge) (a : CreateWindowArgs) (cls : string) :
  lpClassName a = CStr cls -> c_string cls -> cls <> "SWarClass" ->
  CreateWindowExAHook p a inst =
  ([Logf "CreateWindowExA called for class %s (%d,%d), %dx%d"
      [LStr cls; LInt (x a); LInt (y a); LInt (nWidth a); LInt (nHeight a)];
    Original_CreateWindowExA a],
   Ret (original (ImportHooks.CreateWindowExA (hooks_ inst)) a) inst).
Proof.
  intros E Hc N. unfold CreateWindowExAHook, bind. rewrite E; simpl.
  rewrite (strcmp_differs _ _ Hc c_string_SWarClass N). reflexivity.
Qed.

Lemma CreateWindowExAHook_passthrough_witness :
  let inst := set_window_handle_ fresh 77 in
  CreateWindowExAHook desktop other_window_request inst =
  ([Logf "CreateWindowExA called for class %s (%d,%d), %dx%d"
      [LStr "Button"; LInt 10; LInt 20; LInt 80; LInt 25];
    Original_CreateWindowExA other_window_request],
   Ret 0x000A0042 inst).
Proof.
  apply (CreateWindowExAHook_passthrough desktop
           (set_window_handle_ fresh 77)
           other_window_request "Button").
  - reflexivity.
  - simpl. repeat split; discriminate.
  - discriminate.
Defined.

(** ** Graphics Backend registration *)

(** C9. Registering a backend while one is registered fails an assertion;
    so does registering while the vertex or the fragment shader source is
    not configured; with no backend registered and both sources configured
    the backend gets one more reference, is kept in the hooking context and
    is given the vertex and then the fragment source, after which any
    further registration fails the first assertion. *)
Theorem RegisterDirectGlaw_once `{ImportHookImpl} (inst : Forge) (g : Z) :
  (direct_glaw_ inst <> 0 -> RegisterDirectGlaw g inst = ([], AssertFail)) /\
  (vertex_shader_src_ inst = None \/ fragment_shader_src_ inst = None ->
   RegisterDirectGlaw g inst = ([], AssertFail)) /\
  (forall v f,
     direct_glaw_ inst = 0 ->
     vertex_shader_src_ inst = Some v -> fragment_shader_src_ inst = Some f ->
     g <> 0 ->
     RegisterDirectGlaw g inst =
       ([Glaw_AddRef g; Glaw_SetVertexShader g (Some v);
         Glaw_SetFragmentShader g (Some f)],
        Ret tt (set_direct_glaw_ inst g)) /\
     direct_glaw_ (set_direct_glaw_ inst g) = g /\
     forall g',
       RegisterDirectGlaw g' (set_direct_glaw_ inst g) = ([], AssertFail)).
Proof.
  split; [|split].
  - intros N. unfold RegisterDirectGlaw, bind; simpl.
    apply Z.eqb_neq in N. now rewrite N.
  - intros N. unfold RegisterDirectGlaw, bind; simpl.
    destruct (direct_glaw_ inst =? 0); [|reflexivity]. simpl.
    destruct N as [N|N]; rewrite N; simpl; [reflexivity|].
    now destruct (vertex_shader_src_ inst).
  - intros v f E0 Ev Ef Ng. split; [|split].
    + unfold RegisterDirectGlaw, bind; simpl.
      rewrite E0, Ev, Ef; simpl.
      apply Z.eqb_neq in Ng. now rewrite Ng.
    + reflexivity.
    + intros g'. unfold RegisterDirectGlaw, bind; simpl.
      apply Z.eqb_neq in Ng. now rewrite Ng.
Qed.

Lemma RegisterDirectGlaw_once_witness :
  RegisterDirectGlaw 0x00B00000 configured =
    ([Glaw_AddRef 0x00B00000;
      Glaw_SetVertexShader 0x00B00000 (Some "void main() {}");
      Glaw_SetFragmentShader 0x00B00000 (Some "void main() { }")],
     Ret tt (set_direct_glaw_ configured 0x00B00000)) /\
  RegisterDirectGlaw 0x00B00000 (set_direct_glaw_ configured 0x00B00000) =
    ([], AssertFail) /\
  RegisterDirectGlaw 0x00B00000 fresh = ([], AssertFail).
Proof.
  destruct (RegisterDirectGlaw_once configured 0x00B00000) as (_ & _ & Hok).
  destruct (Hok "void main() {}" "void main() { }"
              eq_refl eq_refl eq_refl ltac:(discriminate)) as (E1 & _ & E3).
  destruct (RegisterDirectGlaw_once fresh 0x00B00000) as (_ & Hno & _).
  split; [exact E1 | split; [apply E3 | apply Hno; left; reflexivity]].
Defined.

(** ** Stopping the pump *)

(** C10. [endWndProc] asserts that a window has been recorded: with no
    window recorded the call is an assertion failure and nothing is posted;
    with a window recorded it posts one message, the sentinel
    [WM_USER + 27] with both parameters zero, to that window, returns
    [undefined] and leaves the hooking context as it was. [runWndProc]
    fails the same assertion when no window is recorded. *)
Theorem EndWndProc_requires_window `{ImportHookImpl} (inst : Forge)
    (args : list JsValue) :
  (window_handle_ inst = NULL ->
   EndWndProc args inst = ([], AssertFail) /\
   forall calls msg0 caught,
     RunWndProc args calls msg0 caught inst = ([], AssertFail)) /\
  (window_handle_ inst <> NULL ->
   EndWndProc args inst =
     ([Call_PostMessage (window_handle_ inst) (0x0400 + 27) 0 0],
      Ret JsUndefined inst)).
Proof.
  split; intros E.
  - split; [|intros calls msg0 caught];
      unfold EndWndProc, RunWndProc, bind; simpl; now rewrite E.
  - unfold EndWndProc, bind; simpl.
    apply Z.eqb_neq in E. now rewrite E.
Qed.

Lemma EndWndProc_requires_window_witness :
  EndWndProc [] fresh = ([], AssertFail) /\
  EndWndProc []
    (set_window_handle_ fresh 0x000A0042) =
    ([Call_PostMessage 0x000A0042 1051 0 0],
     Ret JsUndefined
       (set_window_handle_ fresh 0x000A0042)).
Proof.
  split.
  - apply (EndWndProc_requires_window
             fresh []). reflexivity.
  - apply (EndWndProc_requires_window
             (set_window_handle_ fresh
                0x000A0042) []). discriminate.
Defined.

(** ** Chained window procedure *)

(** C2, as amended. For every message and every state of the hooking
    context the chained procedure logs the message and then makes exactly
    the calls of [chained_table]: the seven listed messages go to
    [DefWindowProc] alone and never reach the captured original procedure;
    a close request shows the dialog and is then forwarded like any other
    message; every other message is forwarded, to the captured original
    procedure when there is one and to [DefWindowProc] otherwise. The value
    returned is that of the last call, and the hooking context is left as
    it was. *)
Theorem WndProc_follows_chained_table `{ImportHookImpl} (p : Platform)
    (inst : Forge) (h : HWND) (msg wparam lparam : Z) :
  WndProc p h msg wparam lparam inst =
    (Logf "WndProc(..., 0x%04x, 0x%08x, 0x%08x)"
       [LInt msg; LInt wparam; LInt lparam]
     :: map (action_call h msg wparam lparam)
          (chained_table (original_wndproc_ inst) msg),
     Ret (if default_only msg || (original_wndproc_ inst =? 0)
          then Win32.DefWindowProc p h msg wparam lparam
          else Win32.invoke p (original_wndproc_ inst) h msg wparam lparam)
       inst) /\
  (default_only msg = true ->
   platform_calls (fst (WndProc p h msg wparam lparam inst)) =
     [Call_DefWindowProc h msg wparam lparam]) /\
  (msg = WM_CLOSE ->
   platform_calls (fst (WndProc p h msg wparam lparam inst)) =
     [Call_MessageBox h "Omg." "Pls no..." MB_OK;
      action_call h msg wparam lparam (forward (original_wndproc_ inst))]) /\
  (default_only msg = false -> msg <> WM_CLOSE ->
   platform_calls (fst (WndProc p h msg wparam lparam inst)) =
     [action_call h msg wparam lparam (forward (original_wndproc_ inst))]).
Proof.
  unfold WndProc, chained_table, forward, bind.
  repeat split.
  - destruct (default_only msg); simpl; [reflexivity|].
    destruct (msg =? WM_CLOSE); simpl;
      destruct (original_wndproc_ inst =? 0); reflexivity.
  - intros D. rewrite D. reflexivity.
  - intros ->. simpl.
    destruct (original_wndproc_ inst =? 0); reflexivity.
  - intros D N. rewrite D. apply Z.eqb_neq in N. rewrite N. simpl.
    destruct (original_wndproc_ inst =? 0); reflexivity.
Qed.

Lemma WndProc_follows_chained_table_witness :
  platform_calls (fst (WndProc desktop 0x000A0042 WM_NCPAINT 1 0 windowed)) =
    [Call_DefWindowProc 0x000A0042 WM_NCPAINT 1 0] /\
  platform_calls (fst (WndProc desktop 0x000A0042 WM_CLOSE 0 0 windowed)) =
    [Call_MessageBox 0x000A0042 "Omg." "Pls no..." MB_OK;
     Call_original_wndproc 0x00401000 0x000A0042 WM_CLOSE 0 0] /\
  platform_calls (fst (WndProc desktop 0x000A0042 0x0100 65 0 windowed)) =
    [Call_original_wndproc 0x00401000 0x000A0042 0x0100 65 0].
Proof.
  split; [|split].
  - apply (WndProc_follows_chained_table desktop windowed 0x000A0042
             WM_NCPAINT 1 0). reflexivity.
  - apply (WndProc_follows_chained_table desktop windowed 0x000A0042
             WM_CLOSE 0 0). reflexivity.
  - apply (WndProc_follows_chained_table desktop windowed 0x000A0042
             0x0100 65 0); [reflexivity | discriminate].
Defined.

(** C2, as stated, fails on a close request: with an original procedure
    captured, the table of the specification has the dialog as the whole
    action, while the code goes on to call the captured procedure with the
    close request. *)
Lemma WndProc_close_is_also_forwarded :
  map (action_call 0x000A0042 WM_CLOSE 0 0)
    (spec_table (original_wndproc_ windowed) WM_CLOSE) =
    [Call_MessageBox 0x000A0042 "Omg." "Pls no..." MB_OK] /\
  platform_calls (fst (WndProc desktop 0x000A0042 WM_CLOSE 0 0 windowed)) =
    [Call_MessageBox 0x000A0042 "Omg." "Pls no..." MB_OK;
     Call_original_wndproc 0x00401000 0x000A0042 WM_CLOSE 0 0] /\
  platform_calls (fst (WndProc desktop 0x000A0042 WM_CLOSE 0 0 windowed)) <>
    map (action_call 0x000A0042 WM_CLOSE 0 0)
      (spec_table (original_wndproc_ windowed) WM_CLOSE).
Proof.
  split; [reflexivity | split; [reflexivity | discriminate]].
Qed.

(** ** [int] arithmetic *)

Lemma wrap_in_range (z : Z) : Int32.in_range (Int32.wrap z).
Proof.
  unfold Int32.in_range, Int32.wrap, Int32.min_signed, Int32.max_signed.
  pose proof (Z.mod_pos_bound (z + 2 ^ 31) (2 ^ 32) ltac:(lia)). lia.
Qed.

Lemma wrap_small (z : Z) : Int32.in_range z -> Int32.wrap z = z.
Proof.
  unfold Int32.in_range, Int32.wrap, Int32.min_signed, Int32.max_signed.
  intros R. rewrite Z.mod_small; lia.
Qed.

Lemma quot2_bounds (z : Z) :
  Int32.in_range z -> - 2 ^ 30 <= Z.quot z 2 <= 2 ^ 30.
Proof.
  unfold Int32.in_range, Int32.min_signed, Int32.max_signed. intros R.
  pose proof (Z.quot_rem' z 2) as E.
  pose proof (Z.rem_bound_abs z 2 ltac:(lia)) as B.
  lia.
Qed.

Lemma centred_bounds (extent size : Z) :
  - 2 ^ 30 <= centred extent size <= 2 ^ 30.
Proof.
  unfold centred, Int32.div, Int32.sub.
  pose proof (quot2_bounds _ (wrap_in_range (extent - size))) as B.
  rewrite wrap_small; [exact B|].
  unfold Int32.in_range, Int32.min_signed, Int32.max_signed. lia.
Qed.

Lemma centred_exact (extent size : Z) :
  Int32.in_range (extent - size) ->
  centred extent size = Z.quot (extent - size) 2.
Proof.
  intros R. unfold centred, Int32.div, Int32.sub.
  rewrite (wrap_small _ R).
  pose proof (quot2_bounds _ R) as B.
  apply wrap_small.
  unfold Int32.in_range, Int32.min_signed, Int32.max_signed. lia.
Qed.

Lemma client_rect_for_size (cx cy : Z) :
  Rect.right (client_rect_for cx cy) - Rect.left (client_rect_for cx cy) = 640 /\
  Rect.bottom (client_rect_for cx cy) - Rect.top (client_rect_for cx cy) = 480.
Proof.
  unfold client_rect_for, Int32.add; simpl.
  pose proof (centred_bounds cx 640). pose proof (centred_bounds cy 480).
  rewrite !wrap_small;
    unfold Int32.in_range, Int32.min_signed, Int32.max_signed; lia.
Qed.

(** ** Window Interceptor: the game window *)

(** C1, as amended. For a creation request of class "SWarClass" while no
    window is recorded, whatever style, position and size it asks for: the
    interceptor asks the platform's own [GetSystemMetrics] for the screen
    width and height, takes the 640x480 client rectangle centred over them,
    passes it through [AdjustWindowRect] for the style
    popup/visible/caption/system-menu without menu, and calls the original
    creation function with that style and the origin, width and height of
    the adjusted rectangle, all other arguments as they came. The client
    rectangle is exactly 640 wide and 480 high; its origin is the
    truncated half of (screen extent - 640, resp. 480). The returned handle
    and the window's previous procedure are recorded, and [Forge::WndProc]
    is installed. *)
Theorem CreateWindowExAHook_game_window `{ImportHookImpl} (p : Platform)
    (inst : Forge) (a : CreateWindowArgs) :
  lpClassName a = CStr "SWarClass" -> window_handle_ inst = NULL ->
  let cx := Win32.GetSystemMetrics p SM_CXSCREEN in
  let cy := Win32.GetSystemMetrics p SM_CYSCREEN in
  let client := client_rect_for cx cy in
  let outer := Win32.AdjustWindowRect p client game_window_style false in
  let a' :=
    mkArgs (dwExStyle a) (lpClassName a) (lpWindowName a) game_window_style
      (Rect.left outer) (Rect.top outer)
      (Int32.sub (Rect.right outer) (Rect.left outer))
      (Int32.sub (Rect.bottom outer) (Rect.top outer))
      (hWndParent a) (hMenu a) (hInstance a) (lpParam a) in
  let h := original (ImportHooks.CreateWindowExA (hooks_ inst)) a' in
  platform_calls (fst (CreateWindowExAHook p a inst)) =
    [Call_GetSystemMetrics SM_CXSCREEN; Call_GetSystemMetrics SM_CYSCREEN;
     Call_AdjustWindowRect client game_window_style false;
     Original_CreateWindowExA a';
     Call_GetWindowLong h GWL_WNDPROC;
     Call_SetWindowLong h GWL_WNDPROC (Win32.addr_WndProc p)] /\
  snd (CreateWindowExAHook p a inst) =
    Ret h (set_original_wndproc_ (set_window_handle_ inst h)
             (Win32.GetWindowLong p h GWL_WNDPROC)) /\
  Rect.right client - Rect.left client = 640 /\
  Rect.bottom client - Rect.top client = 480 /\
  (Int32.in_range (cx - 640) -> Rect.left client = Z.quot (cx - 640) 2) /\
  (Int32.in_range (cy - 480) -> Rect.top client = Z.quot (cy - 480) 2) /\
  game_window_style = 0x90C80000.
Proof.
  intros E W. cbv zeta.
  split; [|split; [|split; [|split; [|split; [|split]]]]].
  - unfold CreateWindowExAHook, bind. rewrite E; simpl. rewrite W.
    reflexivity.
  - unfold CreateWindowExAHook, bind. rewrite E; simpl. rewrite W.
    reflexivity.
  - apply client_rect_for_size.
  - apply client_rect_for_size.
  - intros R. simpl. now apply centred_exact.
  - intros R. simpl. now apply centred_exact.
  - reflexivity.
Qed.

Lemma CreateWindowExAHook_game_window_witness :
  platform_calls (fst (CreateWindowExAHook desktop game_window_request configured)) =
    [Call_GetSystemMetrics 0; Call_GetSystemMetrics 1;
     Call_AdjustWindowRect (Rect.mk 640 300 1280 780) 0x90C80000 false;
     Original_CreateWindowExA
       (mkArgs 0 (CStr "SWarClass") (CStr "Brood War") 0x90C80000
          637 274 646 509 NULL NULL 0x00400000 NULL);
     Call_GetWindowLong 0x000A0042 (-4);
     Call_SetWindowLong 0x000A0042 (-4) 0x10001000].
Proof.
  apply (CreateWindowExAHook_game_window desktop configured game_window_request);
    reflexivity.
Defined.

(** C1, as stated, fails on a desktop of 1920x1080. The Metrics Spoofer
    reports 640 and 480, over which a 640x480 client area is centred at
    (0, 0); the interceptor asks [GetSystemMetrics], not
    [GetSystemMetricsHook], and places the client area at (640, 300). *)
Lemma game_window_is_centred_on_the_platform_metrics :
  GetSystemMetricsHook SM_CXSCREEN configured = ([], Ret 640 configured) /\
  GetSystemMetricsHook SM_CYSCREEN configured = ([], Ret 480 configured) /\
  client_rect_for 640 480 = Rect.mk 0 0 640 480 /\
  client_rects (fst (CreateWindowExAHook desktop game_window_request configured)) =
    [Rect.mk 640 300 1280 780] /\
  client_rects (fst (CreateWindowExAHook desktop game_window_request configured)) <>
    [client_rect_for 640 480].
Proof.
  repeat split; discriminate.
Qed.

(** ** Message Loop Worker *)

Lemma WndProcWorker_loop_exits (f : JsValue) (calls : list GetMessageCall)
    (msg : MSG) (q : bool) :
  pump_exits calls msg q ->
  exists t,
    WndProcWorker_loop calls msg (mkContext f false) = Some (t, mkContext f q) /\
    js_calls t = [].
Proof.
  induction 1 as [c calls msg E | c calls msg N E | c calls msg q N N' _ IH];
    simpl.
  - rewrite E. simpl. eexists; split; reflexivity.
  - apply Z.eqb_neq in N. rewrite N, E. simpl. eexists; split; reflexivity.
  - apply Z.eqb_neq in N, N'. rewrite N, N'.
    destruct IH as (t & -> & J). eexists; split; [reflexivity | exact J].
Qed.

Lemma WndProcWorker_loop_returns (f : JsValue) (calls : list GetMessageCall) :
  forall msg t context',
    WndProcWorker_loop calls msg (mkContext f false) = Some (t, context') ->
    exists q, pump_exits calls msg q /\ context' = mkContext f q.
Proof.
  induction calls as [|c calls IH]; intros msg t context' E; simpl in E.
  - discriminate.
  - destruct (Z.eqb_spec (gm_result c) 0) as [Z0|N0].
    + inversion E; subst. exists true. split; [now constructor | reflexivity].
    + destruct (Z.eqb_spec (message (retrieved msg c)) WM_END_WND_PROC_WORKER)
        as [S|NS].
      * inversion E; subst. exists false.
        split; [now constructor | reflexivity].
      * destruct (WndProcWorker_loop calls (retrieved msg c) (mkContext f false))
          as [[t' c']|] eqn:L; [|discriminate].
        inversion E; subst.
        destruct (IH _ _ _ L) as (q & P & ->).
        exists q. split; [now apply exit_later | reflexivity].
Qed.

Lemma pump_exits_functional (calls : list GetMessageCall) (msg : MSG)
    (q q' : bool) :
  pump_exits calls msg q -> pump_exits calls msg q' -> q = q'.
Proof.
  induction 1; inversion 1; subst; try reflexivity; try contradiction; auto.
Qed.

(** C3. A [run(onComplete)] on a context with a window returns at once
    and queues one work item. If the pump leaves its loop, the completion
    handler is called exactly once, with [null] and the flag: [true] when
    [GetMessage] returned 0 (the queue was closed), [false] when the loop
    was left on the sentinel. Conversely the handler is not called before
    the pump has left its loop, and whenever the work item completes the
    handler has been called once with the flag of the way the loop was
    left. *)
Theorem RunWndProc_completes_once `{ImportHookImpl} (inst : Forge)
    (args : list JsValue) (calls : list GetMessageCall) (msg0 : MSG)
    (caught : bool) :
  window_handle_ inst <> NULL -> args <> [] ->
  exists work,
    RunWndProc args calls msg0 caught inst =
      ([], Ret (JsUndefined, work) inst) /\
    (forall quit,
       pump_exits calls msg0 quit ->
       exists t,
         work = Some t /\
         js_calls t = [Js_Call (nth 0 args JsUndefined) [JsNull; JsBoolean quit]]) /\
    (forall t,
       work = Some t ->
       exists quit,
         pump_exits calls msg0 quit /\
         js_calls t = [Js_Call (nth 0 args JsUndefined) [JsNull; JsBoolean quit]]).
Proof.
  intros W A.
  exists (QueueWorkForUiThread (mkContext (nth 0 args JsUndefined) false)
            (WndProcWorker calls msg0) (WndProcWorkerAfter caught)).
  split; [|split].
  - unfold RunWndProc, bind; simpl.
    apply Z.eqb_neq in W. rewrite W. simpl.
    destruct args; [contradiction | reflexivity].
  - intros q P. unfold QueueWorkForUiThread, WndProcWorker; simpl.
    destruct (WndProcWorker_loop_exits (nth 0 args JsUndefined) _ _ _ P)
      as (t & -> & J).
    eexists; split; [reflexivity|].
    unfold js_calls in *. rewrite filter_app, J.
    unfold WndProcWorkerAfter. destruct caught; reflexivity.
  - intros t E. unfold QueueWorkForUiThread, WndProcWorker in E; simpl in E.
    destruct (WndProcWorker_loop calls msg0 _) as [[t' c']|] eqn:L;
      [|discriminate].
    destruct (WndProcWorker_loop_returns _ _ _ _ _ L) as (q & P & ->).
    exists q. split; [exact P|].
    destruct (WndProcWorker_loop_exits (nth 0 args JsUndefined) _ _ _ P)
      as (t2 & L2 & J).
    rewrite L in L2. inversion L2; subst. inversion E; subst.
    unfold js_calls in *. rewrite filter_app, J.
    unfold WndProcWorkerAfter. destruct caught; reflexivity.
Qed.

Lemma RunWndProc_completes_once_witness :
  exists work,
    RunWndProc [JsFunction 1]
      [mkGetMessage 1 (Some (some_msg 0x0200));
       mkGetMessage 1 (Some (some_msg WM_END_WND_PROC_WORKER))]
      (some_msg 0) false windowed =
      ([], Ret (JsUndefined, work) windowed) /\
    exists t,
      work = Some t /\
      js_calls t = [Js_Call (JsFunction 1) [JsNull; JsBoolean false]].
Proof.
  destruct (RunWndProc_completes_once windowed [JsFunction 1]
              [mkGetMessage 1 (Some (some_msg 0x0200));
               mkGetMessage 1 (Some (some_msg WM_END_WND_PROC_WORKER))]
              (some_msg 0) false ltac:(discriminate) ltac:(discriminate))
    as (work & E & Hexit & _).
  exists work. split; [exact E|].
  apply Hexit.
  apply exit_later; [discriminate | discriminate |].
  apply exit_sentinel; [discriminate | reflexivity].
Defined.

(** ** The recorded window handle *)

(** [keeps_window h m]: run in a context that records the handle [h],
    the code [m], if it returns, returns in a context that records [h]. *)

Lemma keeps_ret `{ImportHookImpl} {A} (h : HWND) (a : A) :
  keeps_window h (ret a).
Proof. intros inst t a' inst' W E. inversion E; subst; easy. Qed.

Lemma keeps_emit `{ImportHookImpl} (h : HWND) (e : Event) :
  keeps_window h (emit e).
Proof. intros inst t a' inst' W E. inversion E; subst; easy. Qed.

Lemma keeps_assert `{ImportHookImpl} (h : HWND) (b : bool) :
  keeps_window h (assert b).
Proof.
  intros inst t a' inst' W E. unfold assert in E.
  destruct b; inversion E; subst; easy.
Qed.

Lemma keeps_crash `{ImportHookImpl} {A} (h : HWND) :
  keeps_window h (@crash Forge A).
Proof. intros inst t a' inst' W E. discriminate. Qed.

Lemma keeps_deref `{ImportHookImpl} (h : HWND) (s : LPCSTR) :
  keeps_window h (deref s).
Proof. destruct s; [apply keeps_ret | apply keeps_crash]. Qed.

Lemma keeps_put `{ImportHookImpl} (h : HWND) (inst1 : Forge) :
  window_handle_ inst1 = h -> keeps_window h (put inst1).
Proof. intros W1 inst t a' inst' _ E. inversion E; subst; easy. Qed.

Lemma keeps_bind `{ImportHookImpl} {A B} (h : HWND) (m : M Forge A)
    (f : A -> M Forge B) :
  keeps_window h m -> (forall a, keeps_window h (f a)) ->
  keeps_window h (bind m f).
Proof.
  intros Km Kf inst t b inst' W E. unfold bind in E.
  destruct (m inst) as [t1 [a inst1| |]] eqn:Em; try discriminate.
  destruct (f a inst1) as [t2 r2] eqn:Ef.
  inversion E as [[Et Er]]. rewrite Er in Ef.
  exact (Kf a _ _ _ _ (Km _ _ _ _ W Em) Ef).
Qed.

Lemma keeps_get `{ImportHookImpl} {B} (h : HWND) (f : Forge -> M Forge B) :
  (forall inst, window_handle_ inst = h -> keeps_window h (f inst)) ->
  keeps_window h (bind get f).
Proof.
  intros Kf inst t b inst' W E. unfold bind, get in E.
  destruct (f inst inst) as [t2 r2] eqn:Ef.
  inversion E as [[Et Er]]. rewrite Er in Ef.
  exact (Kf inst W _ _ _ _ W Ef).
Qed.

Lemma keeps_failed_assert `{ImportHookImpl} {B} (h : HWND)
    (f : unit -> M Forge B) :
  keeps_window h (bind (assert false) f).
Proof. intros inst t b inst' W E. discriminate. Qed.

Lemma keeps_if `{ImportHookImpl} {A} (h : HWND) (b : bool) (m1 m2 : M Forge A) :
  keeps_window h m1 -> keeps_window h m2 ->
  keeps_window h (if b then m1 else m2).
Proof. now destruct b. Qed.

Lemma keeps_discard `{ImportHookImpl} {A} (h : HWND) (m : M Forge A) :
  keeps_window h m -> keeps_window h (discard m).
Proof.
  intros K. apply keeps_bind; [exact K | intros; apply keeps_ret].
Qed.

Create HintDb keeps discriminated.
#[local] Hint Resolve keeps_ret keeps_emit keeps_assert keeps_crash
  keeps_deref keeps_if keeps_discard : keeps.

Ltac keeps_step :=
  match goal with
  | |- keeps_window _ (bind get _) => apply keeps_get; intros ? ?
  | |- keeps_window _ (bind _ _) => apply keeps_bind; [|intros ?]
  | |- keeps_window _ (put _) => apply keeps_put; simpl; assumption
  | |- keeps_window _ (let (_, _) := ?e in _) => destruct e
  | |- keeps_window _ (if _ then _ else _) => apply keeps_if
  | |- keeps_window _ _ => solve [auto with keeps]
  end.

Lemma step_keeps_recorded_window `{ImportHookImpl} (p : Platform) (op : Op)
    (h : HWND) :
  h <> NULL -> keeps_window h (step p op).
Proof.
  intros N.
  destruct op; unfold step; try apply keeps_discard.
  - unfold RegisterDirectGlaw. repeat keeps_step.
  - unfold Inject. repeat keeps_step.
  - unfold Restore. repeat keeps_step.
  - unfold RunWndProc. repeat keeps_step.
  - unfold EndWndProc. repeat keeps_step.
  - unfold SetVertexShader. repeat keeps_step.
  - unfold SetFragmentShader. repeat keeps_step.
  - unfold WndProc. repeat keeps_step.
  - unfold CreateWindowExAHook.
    do 3 keeps_step. keeps_step. keeps_step. keeps_step.
    + repeat keeps_step.
    + match goal with W : window_handle_ _ = h |- _ => rewrite W end.
      apply Z.eqb_neq in N. rewrite N. apply keeps_failed_assert.
  - unfold GetSystemMetricsHook. repeat keeps_step.
  - unfold GetProcAddressHook. repeat keeps_step.
Qed.

Lemma run_keeps_recorded_window `{ImportHookImpl}
    (ops : list (Platform * Op)) :
  forall inst inst',
    window_handle_ inst <> NULL ->
    run ops inst = Some inst' ->
    window_handle_ inst' = window_handle_ inst.
Proof.
  induction ops as [|[p op] ops IH]; intros inst inst' W E; simpl in E.
  - now inversion E.
  - destruct (step p op inst) as [t r] eqn:S. simpl in E.
    destruct r as [[] inst1| |]; try discriminate.
    pose proof (step_keeps_recorded_window p op _ W _ _ _ _ eq_refl S) as K.
    rewrite <- K. apply IH; [now rewrite K | exact E].
Qed.

(** C8. Once a window handle is recorded: a further creation request of
    class "SWarClass" fails the assertion before anything is created; no
    operation of the hooking context that returns leaves another handle
    recorded; and so in every run from the constructed context, once a
    state with a recorded handle is reached every later state records the
    same handle. *)
Theorem window_handle_recorded_once `{ImportHookImpl} :
  (forall p inst a,
     lpClassName a = CStr "SWarClass" -> window_handle_ inst <> NULL ->
     platform_calls (fst (CreateWindowExAHook p a inst)) = [] /\
     snd (CreateWindowExAHook p a inst) = AssertFail) /\
  (forall p op inst inst' t,
     window_handle_ inst <> NULL ->
     step p op inst = (t, Ret tt inst') ->
     window_handle_ inst' = window_handle_ inst) /\
  (forall hooks before after inst inst',
     run before (Forge_new hooks) = Some inst ->
     window_handle_ inst <> NULL ->
     run after inst = Some inst' ->
     window_handle_ inst' = window_handle_ inst).
Proof.
  split; [|split].
  - intros p inst a E W. apply Z.eqb_neq in W.
    unfold CreateWindowExAHook, bind. rewrite E; simpl. rewrite W.
    split; reflexivity.
  - intros p op inst inst' t W E.
    exact (step_keeps_recorded_window p op _ W _ _ _ _ eq_refl E).
  - intros hooks before after inst inst' _ W E.
    now apply (run_keeps_recorded_window after).
Qed.

Lemma window_handle_recorded_once_witness :
  snd (CreateWindowExAHook desktop game_window_request windowed) = AssertFail /\
  exists inst',
    run [(desktop, OpInject []);
         (desktop, OpCreateWindowExA other_window_request);
         (desktop, OpWndProc 0x000A0042 WM_CLOSE 0 0);
         (desktop, OpEndWndProc [])] windowed = Some inst' /\
    window_handle_ inst' = window_handle_ windowed.
Proof.
  destruct (@window_handle_recorded_once SpecHook) as (Hassert & _ & Hrun).
  split.
  - apply (Hassert desktop windowed game_window_request);
      [reflexivity | discriminate].
  - eexists. split; [reflexivity|].
    apply (Hrun (sample_hooks true true true)
             [(desktop, OpSetVertexShader [JsString "void main() {}"]);
              (desktop, OpSetFragmentShader [JsString "void main() { }"]);
              (desktop, OpCreateWindowExA game_window_request)]
             [(desktop, OpInject []);
              (desktop, OpCreateWindowExA other_window_request);
              (desktop, OpWndProc 0x000A0042 WM_CLOSE 0 0);
              (desktop, OpEndWndProc [])]
             windowed); [reflexivity | discriminate | reflexivity].
Defined.

(** * Further properties of forge.cpp *)

(** ** What each operation may change *)

Ltac crunch :=
  repeat match goal with
         | |- context [match ?o with CStr _ => _ | IntResource _ => _ end] =>
             destruct o eqn:?; simpl
         | |- context [if ?b then _ else _] => destruct b eqn:?; simpl
         end.

Ltac eqb_props :=
  repeat match goal with
         | H : (_ =? _) = true |- _ => apply Z.eqb_eq in H
         | H : (_ =? _) = false |- _ => apply Z.eqb_neq in H
         | H : negb (_ =? _) = true |- _ =>
             apply negb_true_iff, Z.eqb_neq in H
         | H : negb (_ =? _) = false |- _ =>
             apply negb_false_iff, Z.eqb_eq in H
         end.

Lemma step_frame `{ImportHookImpl} (p : Platform) (op : Op)
    (inst inst' : Forge) (t : list Event) :
  step p op inst = (t, Ret tt inst') ->
  match op with
  | OpRegisterDirectGlaw g =>
      direct_glaw_ inst = 0 /\ g <> 0 /\ inst' = set_direct_glaw_ inst g /\
      addrefs t = [g]
  | OpInject _ | OpRestore _ =>
      same_but_hooks inst inst' /\ addrefs t = []
  | OpSetVertexShader args =>
      window_handle_ inst = NULL /\ addrefs t = [] /\
      exists s, inst' = set_vertex_shader_src_ inst (Some s)
  | OpSetFragmentShader args =>
      window_handle_ inst = NULL /\ addrefs t = [] /\
      exists s, inst' = set_fragment_shader_src_ inst (Some s)
  | OpCreateWindowExA a =>
      addrefs t = [] /\
      (inst' = inst \/
       exists cls h w,
         lpClassName a = CStr cls /\ strcmp cls "SWarClass" = 0 /\
         window_handle_ inst = NULL /\
         inst' = set_original_wndproc_ (set_window_handle_ inst h) w)
  | _ => inst' = inst /\ addrefs t = []
  end.
Proof.
  destruct op; unfold step, discard.
  - unfold RegisterDirectGlaw, bind, assert, get, put, emit, crash, ret; simpl.
    crunch; intros E; try discriminate.
    inversion E; subst. eqb_props. repeat split; auto.
  - unfold Inject, bind; simpl.
    destruct (ImportHook_Inject (ImportHooks.CreateWindowExA (hooks_ inst))).
    destruct (ImportHook_Inject (ImportHooks.GetSystemMetrics (hooks_ inst))).
    destruct (ImportHook_Inject (ImportHooks.GetProcAddress (hooks_ inst))).
    simpl. intros E; inversion E; subst. repeat split.
  - unfold Restore, bind; simpl.
    destruct (ImportHook_Restore (ImportHooks.CreateWindowExA (hooks_ inst))).
    destruct (ImportHook_Restore (ImportHooks.GetSystemMetrics (hooks_ inst))).
    destruct (ImportHook_Restore (ImportHooks.GetProcAddress (hooks_ inst))).
    simpl. intros E; inversion E; subst. repeat split.
  - unfold RunWndProc, bind, assert, get, ret; simpl. crunch;
      intros E; try discriminate. inversion E; subst. now split.
  - unfold EndWndProc, bind, assert, get, emit, ret; simpl. crunch;
      intros E; try discriminate. inversion E; subst. now split.
  - unfold SetVertexShader, bind, assert, get, put, ret; simpl. crunch;
      intros E; try discriminate. inversion E; subst.
    eqb_props. repeat split; [assumption | eexists; reflexivity].
  - unfold SetFragmentShader, bind, assert, get, put, ret; simpl. crunch;
      intros E; try discriminate. inversion E; subst.
    eqb_props. repeat split; [assumption | eexists; reflexivity].
  - unfold WndProc, bind, get, emit, ret; simpl. crunch;
      intros E; inversion E; subst; now split.
  - unfold CreateWindowExAHook, bind, deref, assert, get, put, emit, crash, ret;
      simpl. crunch; intros E; try discriminate; inversion E; subst;
      (split; [reflexivity|]).
    + now left.
    + right. eqb_props. do 3 eexists. repeat split; eassumption || reflexivity.
  - unfold GetSystemMetricsHook, bind, get, emit, ret; simpl. crunch;
      intros E; inversion E; subst; now split.
  - unfold GetProcAddressHook, bind, deref, get, emit, crash, ret; simpl.
    crunch; intros E; try discriminate; inversion E; subst; now split.
Qed.

Ltac one_writer :=
  split; [|split; [|split; [|split]]];
  intros N; try solve [exfalso; simpl in N; intuition congruence].

(** X3. Each field of the hooking context has one writer. An operation
    that returns having changed the recorded window or the captured
    procedure is a creation request of the game class on a context without
    a window; one that changed a shader source is that source's setter, on
    a context without a window; one that changed the backend is a
    registration on a context without a backend; one that changed the hook
    entries is [inject] or [restore]. *)
Theorem context_fields_have_one_writer `{ImportHookImpl} (p : Platform)
    (op : Op) (inst inst' : Forge) (t : list Event) :
  step p op inst = (t, Ret tt inst') ->
  (window_handle_ inst' <> window_handle_ inst \/
   original_wndproc_ inst' <> original_wndproc_ inst ->
   window_handle_ inst = NULL /\
   exists a cls,
     op = OpCreateWindowExA a /\ lpClassName a = CStr cls /\
     strcmp cls "SWarClass" = 0) /\
  (vertex_shader_src_ inst' <> vertex_shader_src_ inst ->
   window_handle_ inst = NULL /\ exists args, op = OpSetVertexShader args) /\
  (fragment_shader_src_ inst' <> fragment_shader_src_ inst ->
   window_handle_ inst = NULL /\ exists args, op = OpSetFragmentShader args) /\
  (direct_glaw_ inst' <> direct_glaw_ inst ->
   direct_glaw_ inst = 0 /\ exists g, op = OpRegisterDirectGlaw g) /\
  (hooks_ inst' <> hooks_ inst ->
   exists args, op = OpInject args \/ op = OpRestore args).
Proof.
  intros E. pose proof (step_frame _ _ _ _ _ E) as F.
  destruct op; simpl in F.
  - destruct F as (G0 & _ & -> & _). one_writer.
    split; [exact G0 | now eexists].
  - destruct F as ((W & O & G & V & Fr) & _). one_writer.
    eexists; left; reflexivity.
  - destruct F as ((W & O & G & V & Fr) & _). one_writer.
    eexists; right; reflexivity.
  - destruct F as (-> & _). one_writer.
  - destruct F as (-> & _). one_writer.
  - destruct F as (W & _ & s & ->). one_writer.
    split; [exact W | now eexists].
  - destruct F as (W & _ & s & ->). one_writer.
    split; [exact W | now eexists].
  - destruct F as (-> & _). one_writer.
  - destruct F as (_ & [-> | (cls & h & w & Ec & Es & W & ->)]); one_writer.
    split; [exact W | eexists; eexists; repeat split; eassumption].
  - destruct F as (-> & _). one_writer.
  - destruct F as (-> & _). one_writer.
Qed.

Lemma context_fields_have_one_writer_witness :
  window_handle_ fresh = NULL /\
  exists args, OpSetVertexShader [JsString "void main() {}"] = OpSetVertexShader args.
Proof.
  apply (context_fields_have_one_writer desktop
           (OpSetVertexShader [JsString "void main() {}"]) fresh
           (set_vertex_shader_src_ fresh (Some "void main() {}")) []).
  - reflexivity.
  - discriminate.
Defined.

Lemma step_with_window `{ImportHookImpl} (p : Platform) (op : Op)
    (inst inst' : Forge) (t : list Event) :
  window_handle_ inst <> NULL ->
  step p op inst = (t, Ret tt inst') ->
  window_handle_ inst' = window_handle_ inst /\
  original_wndproc_ inst' = original_wndproc_ inst /\
  vertex_shader_src_ inst' = vertex_shader_src_ inst /\
  fragment_shader_src_ inst' = fragment_shader_src_ inst.
Proof.
  intros W E. pose proof (step_frame _ _ _ _ _ E) as F.
  destruct op; simpl in F.
  - destruct F as (_ & _ & -> & _). now repeat split.
  - destruct F as ((? & ? & ? & ? & ?) & _). now repeat split.
  - destruct F as ((? & ? & ? & ? & ?) & _). now repeat split.
  - destruct F as (-> & _). now repeat split.
  - destruct F as (-> & _). now repeat split.
  - destruct F as (W0 & _). contradiction.
  - destruct F as (W0 & _). contradiction.
  - destruct F as (-> & _). now repeat split.
  - destruct F as (_ & [-> | (cls & h & w & _ & _ & W0 & _)]);
      [now repeat split | contradiction].
  - destruct F as (-> & _). now repeat split.
  - destruct F as (-> & _). now repeat split.
Qed.

(** X4. Once a window is recorded the configuration is frozen: both
    shader setters fail their assertion, and over any run of operations
    the two shader sources and the captured original procedure stay what
    they were when the window was recorded. *)
Theorem window_freezes_the_configuration `{ImportHookImpl}
    (ops : list (Platform * Op)) :
  forall inst inst',
    window_handle_ inst <> NULL ->
    run ops inst = Some inst' ->
    vertex_shader_src_ inst' = vertex_shader_src_ inst /\
    fragment_shader_src_ inst' = fragment_shader_src_ inst /\
    original_wndproc_ inst' = original_wndproc_ inst /\
    forall p args,
      SetVertexShader p args inst' = ([], AssertFail) /\
      SetFragmentShader p args inst' = ([], AssertFail).
Proof.
  induction ops as [|[p op] ops IH]; intros inst inst' W E; simpl in E.
  - inversion E; subst. repeat split; try reflexivity;
      unfold SetVertexShader, SetFragmentShader, bind; simpl;
      apply Z.eqb_neq in W; now rewrite W.
  - destruct (step p op inst) as [t r] eqn:S. simpl in E.
    destruct r as [[] inst1| |]; try discriminate.
    destruct (step_with_window _ _ _ _ _ W S) as (W1 & O1 & V1 & F1).
    rewrite <- V1, <- F1, <- O1. apply IH; [now rewrite W1 | exact E].
Qed.

Lemma window_freezes_the_configuration_witness :
  exists inst',
    run [(desktop, OpInject []); (desktop, OpWndProc 0x000A0042 WM_PAINT 0 0);
         (desktop, OpRegisterDirectGlaw 0x00B00000)] windowed = Some inst' /\
    vertex_shader_src_ inst' = Some "void main() {}" /\
    SetVertexShader desktop [JsString "x"] inst' = ([], AssertFail).
Proof.
  eexists. split; [reflexivity|].
  destruct (window_freezes_the_configuration
              [(desktop, OpInject []);
               (desktop, OpWndProc 0x000A0042 WM_PAINT 0 0);
               (desktop, OpRegisterDirectGlaw 0x00B00000)]
              windowed _ ltac:(discriminate) eq_refl) as (V & _ & _ & S).
  split; [exact V | apply S].
Defined.

Lemma step_keeps_sources `{ImportHookImpl} (p : Platform) (op : Op)
    (inst inst' : Forge) (t : list Event) :
  not_a_setter op ->
  step p op inst = (t, Ret tt inst') ->
  vertex_shader_src_ inst' = vertex_shader_src_ inst /\
  fragment_shader_src_ inst' = fragment_shader_src_ inst.
Proof.
  intros N E. pose proof (step_frame _ _ _ _ _ E) as F.
  destruct op; simpl in F, N; try contradiction.
  - destruct F as (_ & _ & -> & _). now split.
  - destruct F as ((? & ? & ? & ? & ?) & _). now split.
  - destruct F as ((? & ? & ? & ? & ?) & _). now split.
  - destruct F as (-> & _). now split.
  - destruct F as (-> & _). now split.
  - destruct F as (-> & _). now split.
  - destruct F as (_ & [-> | (cls & h & w & _ & _ & _ & ->)]); now split.
  - destruct F as (-> & _). now split.
  - destruct F as (-> & _). now split.
Qed.

(** X5. The shader sources survive everything but their setters: after
    any run of operations none of which is a shader setter, a first
    registration of a backend hands it exactly the two sources that were
    stored before the run, vertex first. *)
Theorem stored_sources_reach_the_backend `{ImportHookImpl}
    (ops : list (Platform * Op)) (g : Z) (v f : string) :
  forall inst inst',
    Forall (fun po => not_a_setter (snd po)) ops ->
    run ops inst = Some inst' ->
    vertex_shader_src_ inst = Some v -> fragment_shader_src_ inst = Some f ->
    direct_glaw_ inst' = 0 -> g <> 0 ->
    RegisterDirectGlaw g inst' =
      ([Glaw_AddRef g; Glaw_SetVertexShader g (Some v);
        Glaw_SetFragmentShader g (Some f)],
       Ret tt (set_direct_glaw_ inst' g)).
Proof.
  induction ops as [|[p op] ops IH]; intros inst inst' N E V F G Ng;
    simpl in E.
  - inversion E; subst. unfold RegisterDirectGlaw, bind; simpl.
    rewrite G, V, F; simpl. apply Z.eqb_neq in Ng. now rewrite Ng.
  - destruct (step p op inst) as [t r] eqn:S. simpl in E.
    destruct r as [[] inst1| |]; try discriminate.
    inversion N as [|? ? N1 N2]; subst. simpl in N1.
    destruct (step_keeps_sources _ _ _ _ _ N1 S) as (V1 & F1).
    apply (IH inst1 inst'); try assumption; congruence.
Qed.

Lemma stored_sources_reach_the_backend_witness :
  exists inst',
    run [(desktop, OpInject []);
         (desktop, OpCreateWindowExA game_window_request);
         (desktop, OpGetSystemMetrics 0)] configured = Some inst' /\
    RegisterDirectGlaw 0x00B00000 inst' =
      ([Glaw_AddRef 0x00B00000;
        Glaw_SetVertexShader 0x00B00000 (Some "void main() {}");
        Glaw_SetFragmentShader 0x00B00000 (Some "void main() { }")],
       Ret tt (set_direct_glaw_ inst' 0x00B00000)).
Proof.
  eexists. split; [reflexivity|].
  apply (stored_sources_reach_the_backend
           [(desktop, OpInject []);
            (desktop, OpCreateWindowExA game_window_request);
            (desktop, OpGetSystemMetrics 0)] 0x00B00000
           "void main() {}" "void main() { }" configured);
    try reflexivity; try discriminate.
  repeat constructor.
Defined.

(** ** The life of a context *)

Lemma addrefs_app (t1 t2 : list Event) :
  addrefs (t1 ++ t2) = (addrefs t1 ++ addrefs t2)%list.
Proof.
  induction t1 as [|e t1 IH]; simpl; [reflexivity|].
  destruct e; simpl; now rewrite ?IH.
Qed.

Lemma step_addrefs `{ImportHookImpl} (p : Platform) (op : Op)
    (inst inst' : Forge) (t : list Event) :
  step p op inst = (t, Ret tt inst') ->
  held inst' = (held inst ++ addrefs t)%list.
Proof.
  intros E. pose proof (step_frame _ _ _ _ _ E) as F. unfold held.
  destruct op; simpl in F.
  - destruct F as (G0 & Ng & -> & ->). simpl. rewrite G0. simpl.
    apply Z.eqb_neq in Ng. now rewrite Ng.
  - destruct F as ((_ & _ & -> & _) & ->). now rewrite app_nil_r.
  - destruct F as ((_ & _ & -> & _) & ->). now rewrite app_nil_r.
  - destruct F as (-> & ->). now rewrite app_nil_r.
  - destruct F as (-> & ->). now rewrite app_nil_r.
  - destruct F as (_ & -> & s & ->). simpl. now rewrite app_nil_r.
  - destruct F as (_ & -> & s & ->). simpl. now rewrite app_nil_r.
  - destruct F as (-> & ->). now rewrite app_nil_r.
  - destruct F as (-> & [-> | (cls & h & w & _ & _ & _ & ->)]); simpl;
      now rewrite app_nil_r.
  - destruct F as (-> & ->). now rewrite app_nil_r.
  - destruct F as (-> & ->). now rewrite app_nil_r.
Qed.

Lemma run_trace_addrefs `{ImportHookImpl} (ops : list (Platform * Op)) :
  forall inst inst' t,
    run_trace ops inst = Some (t, inst') ->
    held inst' = (held inst ++ addrefs t)%list.
Proof.
  induction ops as [|[p op] ops IH]; intros inst inst' t E; simpl in E.
  - inversion E; subst. simpl. now rewrite app_nil_r.
  - destruct (step p op inst) as [t1 r] eqn:S.
    destruct r as [[] inst1| |]; try discriminate.
    destruct (run_trace ops inst1) as [[t2 inst2]|] eqn:R; try discriminate.
    inversion E; subst.
    rewrite addrefs_app, app_assoc, <- (step_addrefs _ _ _ _ _ S).
    now apply IH.
Qed.

(** X15. Over the life of a context, from its construction through any
    run of operations to its destruction, the destructor releases exactly
    the backends the run took a reference on: none, or the one registered
    backend once. While the context exists a second construction fails the
    assertion; the destructor clears the static, after which a
    construction succeeds and gives a context with no window recorded. *)
Theorem backend_reference_is_balanced `{ImportHookImpl}
    (hooks : ImportHooks.t) (ops : list (Platform * Op)) (t : list Event)
    (inst : Forge) :
  run_trace ops (Forge_new hooks) = Some (t, inst) ->
  releases (fst (Forge_destructor inst)) = addrefs t /\
  (List.length (addrefs t) <= 1)%nat /\
  (forall hooks', Forge_constructor hooks' (Some inst) = ([], AssertFail)) /\
  (forall hooks',
     Forge_constructor hooks' (snd (Forge_destructor inst)) =
       ([], Ret tt (Some (Forge_new hooks'))) /\
     window_handle_ (Forge_new hooks') = NULL).
Proof.
  intros E. pose proof (run_trace_addrefs _ _ _ _ E) as B.
  simpl in B. rewrite <- B.
  split; [|split; [|split]].
  - unfold Forge_destructor, held; simpl.
    now destruct (direct_glaw_ inst =? 0).
  - unfold held. destruct (direct_glaw_ inst =? 0); simpl; lia.
  - reflexivity.
  - intros hooks'. split; reflexivity.
Qed.

Lemma backend_reference_is_balanced_witness :
  exists t inst,
    run_trace [(desktop, OpSetVertexShader [JsString "void main() {}"]);
               (desktop, OpSetFragmentShader [JsString "void main() { }"]);
               (desktop, OpCreateWindowExA game_window_request);
               (desktop, OpRegisterDirectGlaw 0x00B00000);
               (desktop, OpEndWndProc [])] fresh = Some (t, inst) /\
    releases (fst (Forge_destructor inst)) = [0x00B00000] /\
    addrefs t = [0x00B00000].
Proof.
  destruct (backend_reference_is_balanced (sample_hooks true true true)
              [(desktop, OpSetVertexShader [JsString "void main() {}"]);
               (desktop, OpSetFragmentShader [JsString "void main() { }"]);
               (desktop, OpCreateWindowExA game_window_request);
               (desktop, OpRegisterDirectGlaw 0x00B00000);
               (desktop, OpEndWndProc [])] _ _ eq_refl) as (B & _).
  eexists. eexists. split; [reflexivity|].
  split; [exact B | reflexivity].
Defined.

(** ** Shader sources *)

Lemma c_str_is_c_string (s : string) : c_string (c_str s).
Proof.
  induction s as [|c s IH]; simpl; [exact I|].
  destruct (Z.eqb_spec (uchar c) 0); simpl; [exact I | now split].
Qed.

Lemma c_str_of_c_string (s : string) : c_string s -> c_str s = s.
Proof.
  induction s as [|c s IH]; simpl; [reflexivity|].
  intros [N Hs]. apply Z.eqb_neq in N. rewrite N. now rewrite IH.
Qed.

Lemma c_str_is_prefix (s : string) : exists rest, s = c_str s ++ rest.
Proof.
  induction s as [|c s [rest IH]]; simpl.
  - now exists "".
  - destruct (uchar c =? 0); simpl.
    + now eexists.
    + exists rest. now rewrite <- IH.
Qed.

Lemma has_first_arg (a : JsValue) (more : list JsValue) :
  (1 <=? Z.of_nat (List.length (a :: more))) = true.
Proof. apply Z.leb_le. simpl List.length. lia. Qed.

(** X2. What a shader setter stores is the text of its first argument up
    to its first NUL character: a C string that the text starts with, and
    the whole text when it has no NUL. Further arguments are ignored, no
    call is made, [undefined] is returned and nothing else changes. *)
Theorem shader_setters_store_a_C_string `{ImportHookImpl} (p : Platform)
    (inst : Forge) (a : JsValue) (more : list JsValue) :
  window_handle_ inst = NULL ->
  let text := Win32.AsciiValue p a in
  SetVertexShader p (a :: more) inst =
    ([], Ret JsUndefined (set_vertex_shader_src_ inst (Some (c_str text)))) /\
  SetFragmentShader p (a :: more) inst =
    ([], Ret JsUndefined (set_fragment_shader_src_ inst (Some (c_str text)))) /\
  c_string (c_str text) /\
  (exists rest, text = c_str text ++ rest) /\
  (c_string text -> c_str text = text).
Proof.
  intros W text.
  split; [|split; [|split; [|split]]].
  - unfold SetVertexShader, bind. rewrite has_first_arg; simpl.
    now rewrite W.
  - unfold SetFragmentShader, bind. rewrite has_first_arg; simpl.
    now rewrite W.
  - apply c_str_is_c_string.
  - apply c_str_is_prefix.
  - apply c_str_of_c_string.
Qed.

Lemma shader_setters_store_a_C_string_witness :
  SetVertexShader desktop [JsString "void main() {}"; JsNull] fresh =
    ([], Ret JsUndefined (set_vertex_shader_src_ fresh (Some "void main() {}"))).
Proof.
  apply (shader_setters_store_a_C_string desktop fresh
           (JsString "void main() {}") [JsNull]).
  reflexivity.
Defined.

(** X1. On a context without a window a shader setter replaces whatever
    was stored before (the last call wins), each setter leaves the other
    source alone, and so the two setters can be called in either order;
    called without an argument a setter fails its second assertion. *)
Theorem shader_setters_overwrite_and_commute `{ImportHookImpl}
    (p1 p2 : Platform) (inst : Forge) (a b : list JsValue) :
  window_handle_ inst = NULL -> a <> [] -> b <> [] ->
  run [(p1, OpSetVertexShader a); (p2, OpSetVertexShader b)] inst =
    run [(p2, OpSetVertexShader b)] inst /\
  run [(p1, OpSetFragmentShader a); (p2, OpSetFragmentShader b)] inst =
    run [(p2, OpSetFragmentShader b)] inst /\
  run [(p1, OpSetVertexShader a); (p2, OpSetFragmentShader b)] inst =
    run [(p2, OpSetFragmentShader b); (p1, OpSetVertexShader a)] inst /\
  run [(p1, OpSetVertexShader a); (p2, OpSetFragmentShader b)] inst =
    Some (set_fragment_shader_src_
            (set_vertex_shader_src_ inst
               (Some (c_str (Win32.AsciiValue p1 (nth 0 a JsUndefined)))))
            (Some (c_str (Win32.AsciiValue p2 (nth 0 b JsUndefined))))) /\
  SetVertexShader p1 [] inst = ([], AssertFail) /\
  SetFragmentShader p1 [] inst = ([], AssertFail).
Proof.
  intros W Na Nb.
  destruct a as [|a0 a]; [contradiction|].
  destruct b as [|b0 b]; [contradiction|].
  unfold run, step, discard, SetVertexShader, SetFragmentShader, bind.
  rewrite !has_first_arg; simpl. rewrite W; simpl. rewrite W; simpl.
  repeat split.
Qed.

Lemma shader_setters_overwrite_and_commute_witness :
  run [(desktop, OpSetVertexShader [JsString "a"]);
       (desktop, OpSetVertexShader [JsString "b"])] fresh =
  run [(desktop, OpSetVertexShader [JsString "b"])] fresh.
Proof.
  apply (shader_setters_overwrite_and_commute desktop desktop fresh
           [JsString "a"] [JsString "b"]); [reflexivity | | ]; discriminate.
Defined.

(** ** More on the message pump *)

Lemma pump_trace_cons (m : MSG) (ms : list MSG) :
  pump_trace (m :: ms) =
  Call_GetMessage :: Call_TranslateMessage m :: Call_DispatchMessage m
    :: pump_trace ms.
Proof. reflexivity. Qed.

Lemma WndProcWorker_loop_shape (calls : list GetMessageCall) :
  forall msg context t context',
    WndProcWorker_loop calls msg context = Some (t, context') ->
    t = pump_trace (dispatched t) /\
    Forall (fun m => message m <> WM_END_WND_PROC_WORKER) (dispatched t) /\
    (forall m, In m (dispatched t) ->
               m = msg \/ exists c, In c calls /\ gm_msg c = Some m) /\
    (List.length (dispatched t) < List.length calls)%nat /\
    cb context' = cb context.
Proof.
  induction calls as [|c calls IH]; intros msg context t context' E;
    simpl in E; [discriminate|].
  destruct (Z.eqb_spec (gm_result c) 0) as [Z0|N0].
  { inversion E; subst. simpl.
    split; [reflexivity | split; [constructor | split; [intros m [] |]]].
    split; [lia | reflexivity]. }
  destruct (Z.eqb_spec (message (retrieved msg c)) WM_END_WND_PROC_WORKER)
    as [S|NS].
  { inversion E; subst. simpl.
    split; [reflexivity | split; [constructor | split; [intros m [] |]]].
    split; [lia | reflexivity]. }
  destruct (WndProcWorker_loop calls (retrieved msg c) context)
    as [[t' c']|] eqn:L; [|discriminate].
  inversion E; subst.
  destruct (IH _ _ _ _ L) as (Sh & Fa & Fr & Le & Cb).
  simpl dispatched. rewrite pump_trace_cons, <- Sh.
  split; [reflexivity|]. split; [now constructor|].
  split; [|split; [simpl; lia | exact Cb]].
  intros m [<-|Hm].
  - unfold retrieved. destruct (gm_msg c) as [m'|] eqn:G.
    + right. exists c. split; [now left | exact G].
    + now left.
  - destruct (Fr m Hm) as [->|(c0 & Hc & G)].
    + unfold retrieved. destruct (gm_msg c) as [m'|] eqn:G.
      * right. exists c. split; [now left | exact G].
      * now left.
    + right. exists c0. split; [now right | exact G].
Qed.

(** X11. Whenever the pump returns, what it did is: for each message it
    dispatched, in order, one [GetMessage], one [TranslateMessage] and one
    [DispatchMessage] of that message, and then the one [GetMessage] it
    left on. No dispatched message is the sentinel, every dispatched
    message was stored by one of the [GetMessage] calls or was in the
    buffer before, and the callback of the work item is untouched. *)
Theorem WndProcWorker_dispatches_what_it_retrieves
    (calls : list GetMessageCall) (msg0 : MSG) (context context' : WndProcContext)
    (t : list Event) :
  WndProcWorker calls msg0 context = Some (t, context') ->
  t = pump_trace (dispatched t) /\
  Forall (fun m => message m <> WM_END_WND_PROC_WORKER) (dispatched t) /\
  (forall m, In m (dispatched t) ->
             m = msg0 \/ exists c, In c calls /\ gm_msg c = Some m) /\
  (List.length (dispatched t) < List.length calls)%nat /\
  cb context' = cb context.
Proof.
  unfold WndProcWorker. intros E.
  exact (WndProcWorker_loop_shape _ _ _ _ _ E).
Qed.

Lemma WndProcWorker_dispatches_what_it_retrieves_witness :
  dispatched
    [Call_GetMessage; Call_TranslateMessage (some_msg 0x0200);
     Call_DispatchMessage (some_msg 0x0200); Call_GetMessage] =
  [some_msg 0x0200] /\
  Forall (fun m => message m <> WM_END_WND_PROC_WORKER) [some_msg 0x0200].
Proof.
  destruct (WndProcWorker_dispatches_what_it_retrieves
              [mkGetMessage 1 (Some (some_msg 0x0200));
               mkGetMessage 1 (Some (some_msg WM_END_WND_PROC_WORKER));
               mkGetMessage 1 (Some (some_msg 0x0201))]
              (some_msg 0) (mkContext (JsFunction 1) true) _ _ eq_refl)
    as (_ & F & _).
  split; [reflexivity | exact F].
Defined.

(** X12. Once the pump has returned, no outcome of a later [GetMessage]
    changes anything: the pump retrieves nothing after the call it left
    on, so messages queued behind the sentinel are not consumed. *)
Theorem WndProcWorker_stops_retrieving
    (calls more : list GetMessageCall) (msg0 : MSG)
    (context : WndProcContext) (r : list Event * WndProcContext) :
  WndProcWorker calls msg0 context = Some r ->
  WndProcWorker (calls ++ more) msg0 context = Some r.
Proof.
  unfold WndProcWorker. generalize (mkContext (cb context) false) as ctx.
  revert msg0 r.
  induction calls as [|c calls IH]; intros msg r ctx E; simpl in *;
    [discriminate|].
  destruct (gm_result c =? 0); [exact E|].
  destruct (message (retrieved msg c) =? WM_END_WND_PROC_WORKER); [exact E|].
  destruct (WndProcWorker_loop calls (retrieved msg c) ctx)
    as [[t' c']|] eqn:L; [|discriminate].
  now rewrite (IH _ _ _ L).
Qed.

Lemma WndProcWorker_stops_retrieving_witness :
  WndProcWorker
    ([mkGetMessage 1 (Some (some_msg WM_END_WND_PROC_WORKER))]
     ++ [mkGetMessage 1 (Some (some_msg 0x0201)); mkGetMessage 0 None])
    (some_msg 0) (mkContext (JsFunction 1) true) =
  Some ([Call_GetMessage], mkContext (JsFunction 1) false).
Proof.
  apply (WndProcWorker_stops_retrieving
           [mkGetMessage 1 (Some (some_msg WM_END_WND_PROC_WORKER))]).
  reflexivity.
Defined.

Lemma pump_trace_repeat_loop (calls : list GetMessageCall) :
  forall msg context,
    Forall (fun c => gm_result c <> 0 /\ gm_msg c = None) calls ->
    message msg <> WM_END_WND_PROC_WORKER ->
    WndProcWorker_loop calls msg context = None /\
    forall c rest,
      gm_result c = 0 ->
      WndProcWorker_loop (calls ++ c :: rest) msg context =
        Some (pump_trace (repeat msg (List.length calls)),
              mkContext (cb context) true).
Proof.
  induction calls as [|c0 calls IH]; intros msg context F N; simpl.
  - split; [reflexivity|]. intros c rest Z0. now rewrite Z0.
  - inversion F as [|? ? [N0 G0] F']; subst.
    apply Z.eqb_neq in N0. rewrite N0.
    unfold retrieved. rewrite G0.
    pose proof N as N'. apply Z.eqb_neq in N'. rewrite N'.
    destruct (IH msg context F' N) as (E1 & E2).
    rewrite E1. split; [reflexivity|].
    intros c rest Z0. rewrite (E2 c rest Z0).
    now rewrite pump_trace_cons.
Qed.

(** X13. A failing [GetMessage] (non-zero result, nothing stored) does not
    end the pump: as long as every call fails the pump does not return, so
    the completion handler is not called, and each failure translates and
    dispatches once more the message left in the buffer. When the queue is
    then closed the pump returns with [quit] set, having dispatched that
    message once per failure. *)
Theorem GetMessage_errors_do_not_end_the_pump
    (calls : list GetMessageCall) (msg0 : MSG) (context : WndProcContext) :
  Forall (fun c => gm_result c <> 0 /\ gm_msg c = None) calls ->
  message msg0 <> WM_END_WND_PROC_WORKER ->
  WndProcWorker calls msg0 context = None /\
  (forall caught,
     QueueWorkForUiThread context (WndProcWorker calls msg0)
       (WndProcWorkerAfter caught) = None) /\
  forall c rest,
    gm_result c = 0 ->
    WndProcWorker (calls ++ c :: rest) msg0 context =
      Some (pump_trace (repeat msg0 (List.length calls)),
            mkContext (cb context) true).
Proof.
  intros F N. unfold WndProcWorker, QueueWorkForUiThread.
  destruct (pump_trace_repeat_loop calls msg0
              (mkContext (cb context) false) F N) as (E1 & E2).
  split; [exact E1 | split].
  - intros caught. unfold WndProcWorker. now rewrite E1.
  - exact E2.
Qed.

Lemma GetMessage_errors_do_not_end_the_pump_witness :
  WndProcWorker [GetMessage_error; GetMessage_error] (some_msg 0x0200)
    (mkContext (JsFunction 1) false) = None /\
  WndProcWorker ([GetMessage_error; GetMessage_error] ++ [mkGetMessage 0 None])
    (some_msg 0x0200) (mkContext (JsFunction 1) false) =
    Some (pump_trace [some_msg 0x0200; some_msg 0x0200],
          mkContext (JsFunction 1) true).
Proof.
  destruct (GetMessage_errors_do_not_end_the_pump
              [GetMessage_error; GetMessage_error] (some_msg 0x0200)
              (mkContext (JsFunction 1) false)) as (E1 & _ & E2).
  - repeat constructor; discriminate.
  - discriminate.
  - split; [exact E1 | apply E2; reflexivity].
Defined.

Lemma pump_exits_on_sentinel_after (pre : list GetMessageCall) :
  forall msg c rest,
    Forall (fun c0 => gm_result c0 <> 0 /\
                      exists m', gm_msg c0 = Some m' /\
                                 message m' <> WM_END_WND_PROC_WORKER) pre ->
    gm_result c <> 0 ->
    message (retrieved msg c) = WM_END_WND_PROC_WORKER ->
    (forall msg', retrieved msg' c = retrieved msg c) ->
    pump_exits (pre ++ c :: rest) msg false.
Proof.
  induction pre as [|c0 pre IH]; intros msg c rest F N S Same; simpl.
  - now apply exit_sentinel.
  - inversion F as [|? ? (N0 & m' & G & Nm) F']; subst.
    apply exit_later.
    + exact N0.
    + unfold retrieved. rewrite G. exact Nm.
    + apply IH; [exact F' | exact N | now rewrite Same |].
      intros msg'. now rewrite (Same msg'), (Same (retrieved msg c0)).
Qed.

(** X14. Stop and run fit together: the message [endWndProc] posts goes
    to the recorded window and is one the pump leaves on. When a pump that
    has so far retrieved only other messages retrieves it, the work item
    completes and the completion handler is called once, with [false]. *)
Theorem EndWndProc_message_ends_the_pump `{ImportHookImpl} (inst : Forge)
    (args : list JsValue) (h : HWND) (m w l r tm : Z) (where_ : Z * Z)
    (pre rest : list GetMessageCall) (msg0 : MSG) (context : WndProcContext)
    (caught : bool) :
  In (Call_PostMessage h m w l) (fst (EndWndProc args inst)) ->
  Forall (fun c => gm_result c <> 0 /\
                   exists m', gm_msg c = Some m' /\
                              message m' <> WM_END_WND_PROC_WORKER) pre ->
  r <> 0 ->
  h = window_handle_ inst /\ h <> NULL /\
  exists t,
    QueueWorkForUiThread context
      (WndProcWorker
         (pre ++ mkGetMessage r (Some (mkMSG h m w l tm where_)) :: rest) msg0)
      (WndProcWorkerAfter caught) = Some t /\
    js_calls t = [Js_Call (cb context) [JsNull; JsBoolean false]].
Proof.
  intros P F N.
  unfold EndWndProc, bind in P; simpl in P.
  destruct (Z.eqb_spec (window_handle_ inst) NULL) as [W|W]; simpl in P;
    [contradiction|].
  destruct P as [P|[]]. inversion P; subst.
  split; [reflexivity | split; [exact W|]].
  assert (X : pump_exits
                (pre ++ mkGetMessage r
                          (Some (mkMSG (window_handle_ inst)
                                   WM_END_WND_PROC_WORKER NULL NULL tm where_))
                     :: rest) msg0 false)
    by (apply pump_exits_on_sentinel_after; try assumption; reflexivity).
  destruct (WndProcWorker_loop_exits (cb context) _ _ _ X) as (t & L & J).
  unfold QueueWorkForUiThread, WndProcWorker. rewrite L.
  eexists; split; [reflexivity|].
  unfold js_calls in *. rewrite filter_app, J.
  unfold WndProcWorkerAfter. destruct caught; reflexivity.
Qed.

Lemma EndWndProc_message_ends_the_pump_witness :
  exists t,
    QueueWorkForUiThread (mkContext (JsFunction 1) false)
      (WndProcWorker
         ([mkGetMessage 1 (Some (some_msg 0x0200))]
          ++ mkGetMessage 1
               (Some (mkMSG 0x000A0042 1051 0 0 77 (3, 4))) :: [])
         (some_msg 0))
      (WndProcWorkerAfter false) = Some t /\
    js_calls t = [Js_Call (JsFunction 1) [JsNull; JsBoolean false]].
Proof.
  apply (EndWndProc_message_ends_the_pump windowed [] 0x000A0042 1051 0 0 1 77
           (3, 4) [mkGetMessage 1 (Some (some_msg 0x0200))] []
           (some_msg 0) (mkContext (JsFunction 1) false) false).
  - left. reflexivity.
  - repeat constructor; [discriminate|].
    eexists; split; [reflexivity | discriminate].
  - discriminate.
Defined.

(** ** More on the window interceptor *)

Lemma game_window_client_rect `{ImportHookImpl} (p : Platform) (inst : Forge)
    (a : CreateWindowArgs) :
  lpClassName a = CStr "SWarClass" -> window_handle_ inst = NULL ->
  client_rects (fst (CreateWindowExAHook p a inst)) =
    [client_rect_for (Win32.GetSystemMetrics p SM_CXSCREEN)
       (Win32.GetSystemMetrics p SM_CYSCREEN)].
Proof.
  intros E W. unfold CreateWindowExAHook, bind. rewrite E; simpl.
  rewrite W. reflexivity.
Qed.

Lemma centred_margins (extent size : Z) :
  0 <= size <= 4096 -> 0 <= extent <= Int32.max_signed ->
  let o := centred extent size in
  -1 <= extent - (o + (o + size)) <= 1 /\
  (size <= extent -> 0 <= o /\ o + size <= extent) /\
  (extent < size -> o <= 0 /\ extent <= o + size).
Proof.
  intros Hs He o. subst o.
  unfold Int32.max_signed in He.
  rewrite centred_exact
    by (unfold Int32.in_range, Int32.min_signed, Int32.max_signed; lia).
  pose proof (Z.quot_rem' (extent - size) 2) as Q.
  pose proof (Z.rem_bound_abs (extent - size) 2 ltac:(lia)) as B.
  destruct (Z_le_gt_dec size extent) as [G|G].
  - pose proof (Z.rem_nonneg (extent - size) 2 ltac:(lia) ltac:(lia)).
    lia.
  - pose proof (Z.rem_nonpos (extent - size) 2 ltac:(lia) ltac:(lia)).
    lia.
Qed.

(** X9. On a screen whose width and height the platform reports as
    non-negative [int]s, the client rectangle requested for the game
    window has its centre within one pixel of the centre of the screen in
    both directions; it lies within the screen when the screen is at least
    640x480 and covers the screen in a direction in which the screen is
    smaller. *)
Theorem game_window_is_centred_within_the_screen `{ImportHookImpl}
    (p : Platform) (inst : Forge) (a : CreateWindowArgs) :
  lpClassName a = CStr "SWarClass" -> window_handle_ inst = NULL ->
  let cx := Win32.GetSystemMetrics p SM_CXSCREEN in
  let cy := Win32.GetSystemMetrics p SM_CYSCREEN in
  0 <= cx <= Int32.max_signed -> 0 <= cy <= Int32.max_signed ->
  exists r,
    client_rects (fst (CreateWindowExAHook p a inst)) = [r] /\
    -1 <= cx - (Rect.left r + Rect.right r) <= 1 /\
    -1 <= cy - (Rect.top r + Rect.bottom r) <= 1 /\
    (640 <= cx -> 0 <= Rect.left r /\ Rect.right r <= cx) /\
    (480 <= cy -> 0 <= Rect.top r /\ Rect.bottom r <= cy) /\
    (cx < 640 -> Rect.left r <= 0 /\ cx <= Rect.right r) /\
    (cy < 480 -> Rect.top r <= 0 /\ cy <= Rect.bottom r).
Proof.
  intros E W cx cy Hx Hy.
  exists (client_rect_for cx cy).
  split; [now apply game_window_client_rect|].
  destruct (client_rect_for_size cx cy) as (Sx & Sy).
  destruct (centred_margins cx 640 ltac:(lia) Hx) as (Mx & Ix & Ox).
  destruct (centred_margins cy 480 ltac:(lia) Hy) as (My & Iy & Oy).
  assert (L : Rect.left (client_rect_for cx cy) = centred cx 640)
    by reflexivity.
  assert (T : Rect.top (client_rect_for cx cy) = centred cy 480)
    by reflexivity.
  rewrite L, T in *. cbv zeta in *.
  repeat split; lia.
Qed.

Lemma game_window_is_centred_within_the_screen_witness :
  exists r,
    client_rects (fst (CreateWindowExAHook desktop game_window_request configured)) =
      [r] /\
    -1 <= 1920 - (Rect.left r + Rect.right r) <= 1 /\
    -1 <= 1080 - (Rect.top r + Rect.bottom r) <= 1.
Proof.
  destruct (game_window_is_centred_within_the_screen desktop configured
              game_window_request eq_refl eq_refl)
    as (r & E & Cx & Cy & _).
  - unfold Int32.max_signed; simpl; lia.
  - unfold Int32.max_signed; simpl; lia.
  - exists r. split; [exact E | split; [exact Cx | exact Cy]].
Defined.

(** X10. The client rectangle requested for the game window is exactly as
    wide and as high as the screen the application is told about: its
    width is what the metrics replacement answers for both width indices
    and its height what it answers for both height indices, in whatever
    state the context is when it is asked. *)
Theorem game_window_has_the_spoofed_size `{ImportHookImpl} (p : Platform)
    (inst : Forge) (a : CreateWindowArgs) :
  lpClassName a = CStr "SWarClass" -> window_handle_ inst = NULL ->
  exists r,
    client_rects (fst (CreateWindowExAHook p a inst)) = [r] /\
    forall inst2,
      GetSystemMetricsHook SM_CXSCREEN inst2 =
        ([], Ret (Rect.right r - Rect.left r) inst2) /\
      GetSystemMetricsHook SM_CXFULLSCREEN inst2 =
        ([], Ret (Rect.right r - Rect.left r) inst2) /\
      GetSystemMetricsHook SM_CYSCREEN inst2 =
        ([], Ret (Rect.bottom r - Rect.top r) inst2) /\
      GetSystemMetricsHook SM_CYFULLSCREEN inst2 =
        ([], Ret (Rect.bottom r - Rect.top r) inst2).
Proof.
  intros E W. eexists. split; [now apply game_window_client_rect|].
  intros inst2.
  destruct (client_rect_for_size (Win32.GetSystemMetrics p SM_CXSCREEN)
              (Win32.GetSystemMetrics p SM_CYSCREEN)) as (-> & ->).
  repeat split.
Qed.

Lemma game_window_has_the_spoofed_size_witness :
  exists r,
    client_rects (fst (CreateWindowExAHook desktop game_window_request configured)) =
      [r] /\
    GetSystemMetricsHook SM_CXSCREEN windowed =
      ([], Ret (Rect.right r - Rect.left r) windowed).
Proof.
  destruct (game_window_has_the_spoofed_size desktop configured
              game_window_request eq_refl eq_refl) as (r & E & S).
  exists r. split; [exact E | apply S].
Defined.

(** X8. Whenever the creation hook returns it has called the original
    creation function exactly once, and returns the handle that call
    returned. The call carries the extended style, class name, window name,
    parent, menu, instance and parameter of the request; when the class
    name compares equal to "SWarClass" it carries the game window style
    and the context records the returned handle, and otherwise it carries
    the request unchanged and the context is left as it was. The hook
    entries are never touched. *)
Theorem CreateWindowExAHook_calls_the_original_once `{ImportHookImpl}
    (p : Platform) (a : CreateWindowArgs) (inst inst' : Forge)
    (t : list Event) (h : HWND) :
  CreateWindowExAHook p a inst = (t, Ret h inst') ->
  exists a' cls,
    original_creates t = [a'] /\
    h = original (ImportHooks.CreateWindowExA (hooks_ inst)) a' /\
    lpClassName a = CStr cls /\
    dwExStyle a' = dwExStyle a /\ lpClassName a' = lpClassName a /\
    lpWindowName a' = lpWindowName a /\ hWndParent a' = hWndParent a /\
    hMenu a' = hMenu a /\ hInstance a' = hInstance a /\
    lpParam a' = lpParam a /\
    hooks_ inst' = hooks_ inst /\
    (strcmp cls "SWarClass" = 0 ->
     dwStyle a' = game_window_style /\ window_handle_ inst' = h /\
     window_handle_ inst = NULL) /\
    (strcmp cls "SWarClass" <> 0 -> a' = a /\ inst' = inst).
Proof.
  unfold CreateWindowExAHook, bind, deref, assert, get, put, emit, crash, ret;
    simpl.
  destruct (lpClassName a) as [cls|n] eqn:Ec; simpl; [|discriminate].
  destruct (Z.eqb_spec (strcmp cls "SWarClass") 0) as [S|S]; simpl.
  - destruct (Z.eqb_spec (window_handle_ inst) NULL) as [W|W]; simpl;
      [|discriminate].
    intros E; inversion E; subst; clear E. simpl.
    eexists; exists cls.
    repeat split; try reflexivity; try assumption; contradiction.
  - intros E; inversion E; subst; clear E. simpl.
    exists a, cls.
    repeat split; try reflexivity; try assumption; contradiction.
Qed.

Lemma CreateWindowExAHook_calls_the_original_once_witness :
  exists a' cls,
    original_creates
      (fst (CreateWindowExAHook desktop game_window_request configured)) =
      [a'] /\
    0x000A0042 = original (ImportHooks.CreateWindowExA (hooks_ configured)) a' /\
    lpClassName game_window_request = CStr cls /\
    dwExStyle a' = 0.
Proof.
  destruct (CreateWindowExAHook_calls_the_original_once desktop
              game_window_request configured _ _ 0x000A0042 eq_refl)
    as (a' & cls & E1 & E2 & E3 & E4 & _).
  exists a', cls. repeat split; assumption.
Defined.

(** X7. The hook does not check the handle the original returns. When
    the original creation fails (returns NULL) for a game window, the hook
    still reads and replaces the window procedure of the NULL handle and
    returns NULL; no window is then recorded, so [runWndProc] and
    [endWndProc] still fail their assertion, and a later creation request
    of the game class is again let through to the original rather than
    stopped by the assertion. *)
Theorem failed_creation_records_no_window `{ImportHookImpl} (p : Platform)
    (inst : Forge) (a : CreateWindowArgs) :
  lpClassName a = CStr "SWarClass" -> window_handle_ inst = NULL ->
  (forall a', lpClassName a' = CStr "SWarClass" ->
              original (ImportHooks.CreateWindowExA (hooks_ inst)) a' = NULL) ->
  exists t inst',
    CreateWindowExAHook p a inst = (t, Ret NULL inst') /\
    In (Call_GetWindowLong NULL GWL_WNDPROC) t /\
    In (Call_SetWindowLong NULL GWL_WNDPROC (Win32.addr_WndProc p)) t /\
    window_handle_ inst' = NULL /\
    (forall args, EndWndProc args inst' = ([], AssertFail)) /\
    (forall args calls msg0 caught,
       RunWndProc args calls msg0 caught inst' = ([], AssertFail)) /\
    (forall p2 a2,
       lpClassName a2 = CStr "SWarClass" ->
       exists t2 inst2,
         CreateWindowExAHook p2 a2 inst' = (t2, Ret NULL inst2) /\
         List.length (original_creates t2) = 1%nat).
Proof.
  intros E W Fail.
  assert (Go : forall p0 a0 i0,
             lpClassName a0 = CStr "SWarClass" -> window_handle_ i0 = NULL ->
             hooks_ i0 = hooks_ inst ->
             exists t0 w0,
               CreateWindowExAHook p0 a0 i0 =
                 (t0, Ret NULL
                        (set_original_wndproc_ (set_window_handle_ i0 NULL) w0)) /\
               In (Call_GetWindowLong NULL GWL_WNDPROC) t0 /\
               In (Call_SetWindowLong NULL GWL_WNDPROC (Win32.addr_WndProc p0)) t0 /\
               List.length (original_creates t0) = 1%nat).
  { intros p0 a0 i0 E0 W0 H0.
    unfold CreateWindowExAHook, bind. rewrite E0; simpl. rewrite W0; simpl.
    rewrite H0, Fail by reflexivity.
    eexists; eexists. split; [reflexivity|].
    simpl. repeat split; tauto. }
  destruct (Go p a inst E W eq_refl) as (t & w & Et & G & S & _).
  exists t. eexists. split; [exact Et|].
  split; [exact G | split; [exact S | split; [reflexivity | split; [|split]]]].
  - intros args. reflexivity.
  - intros args calls msg0 caught. reflexivity.
  - intros p2 a2 E2.
    destruct (Go p2 a2 (set_original_wndproc_ (set_window_handle_ inst NULL) w)
                E2 eq_refl eq_refl) as (t2 & w2 & Et2 & _ & _ & L).
    exists t2. eexists. split; [exact Et2 | exact L].
Qed.

Lemma failed_creation_records_no_window_witness :
  exists t inst',
    CreateWindowExAHook desktop game_window_request (Forge_new failing_hooks) =
      (t, Ret NULL inst') /\
    window_handle_ inst' = NULL.
Proof.
  destruct (failed_creation_records_no_window desktop
              (Forge_new failing_hooks) game_window_request eq_refl eq_refl)
    as (t & inst' & E & _ & _ & W & _).
  - intros a' _. reflexivity.
  - exists t, inst'. split; [exact E | exact W].
Defined.

(** X6. After the hook has created the game window (the original
    returned a handle other than NULL), the rest of the context works on
    that window: [endWndProc] posts the sentinel to the returned handle,
    [runWndProc] with a handler is accepted, the chained procedure forwards
    every message outside its list to the procedure [GetWindowLong] gave
    for the new window at creation (to [DefWindowProc] if that was null),
    and both shader setters fail their assertion. *)
Theorem intercepted_window_is_served `{ImportHookImpl} (p : Platform)
    (a : CreateWindowArgs) (inst inst' : Forge) (t : list Event) (h : HWND) :
  lpClassName a = CStr "SWarClass" ->
  CreateWindowExAHook p a inst = (t, Ret h inst') -> h <> NULL ->
  (forall args,
     EndWndProc args inst' =
       ([Call_PostMessage h WM_END_WND_PROC_WORKER 0 0], Ret JsUndefined inst')) /\
  (forall args calls msg0 caught,
     args <> [] ->
     exists work,
       RunWndProc args calls msg0 caught inst' =
         ([], Ret (JsUndefined, work) inst')) /\
  (forall p2 w msg wparam lparam,
     default_only msg = false -> msg <> WM_CLOSE ->
     platform_calls (fst (WndProc p2 w msg wparam lparam inst')) =
       [action_call w msg wparam lparam
          (forward (Win32.GetWindowLong p h GWL_WNDPROC))]) /\
  (forall p2 args,
     SetVertexShader p2 args inst' = ([], AssertFail) /\
     SetFragmentShader p2 args inst' = ([], AssertFail)).
Proof.
  intros E C Nh. revert C.
  unfold CreateWindowExAHook, bind. rewrite E; simpl.
  destruct (Z.eqb_spec (window_handle_ inst) NULL) as [W|W]; simpl;
    [|discriminate].
  intros C; inversion C as [[Et Eh Ei]]; clear C.
  rewrite Eh. apply Z.eqb_neq in Nh.
  split; [|split; [|split]].
  - intros args. unfold EndWndProc, bind; simpl. now rewrite Nh.
  - intros args calls msg0 caught Na. eexists.
    unfold RunWndProc, bind; simpl. rewrite Nh; simpl.
    destruct args; [contradiction | reflexivity].
  - intros p2 w msg wparam lparam D Nc.
    unfold WndProc, forward, bind; simpl. rewrite D; simpl.
    apply Z.eqb_neq in Nc. rewrite Nc; simpl.
    destruct (Win32.GetWindowLong p h GWL_WNDPROC =? 0); reflexivity.
  - intros p2 args.
    unfold SetVertexShader, SetFragmentShader, bind; simpl. now rewrite Nh.
Qed.

Lemma intercepted_window_is_served_witness :
  EndWndProc [] windowed =
    ([Call_PostMessage 0x000A0042 WM_END_WND_PROC_WORKER 0 0],
     Ret JsUndefined windowed) /\
  platform_calls (fst (WndProc desktop 0x000A0042 0x0100 65 0 windowed)) =
    [Call_original_wndproc 0x00401000 0x000A0042 0x0100 65 0].
Proof.
  destruct (intercepted_window_is_served desktop game_window_request
              configured windowed _ 0x000A0042 eq_refl eq_refl
              ltac:(discriminate)) as (End & _ & Fwd & _).
  split; [apply End|].
  apply (Fwd desktop 0x000A0042 0x0100 65 0); [reflexivity | discriminate].
Defined.
